(** * l402-js: the L402 middleware and client, embedded in Rocq

    The development follows the TypeScript sources:
    - the middleware ([src/index.ts], from its line 28 on):
      [createServiceMacaroon], [parseServiceMacaroon], [verifyPreimage],
      [createInvoice] and the Express middleware [l402];
    - [src/client.ts]: [payInvoice] and [createL402Client] with its
      [l402Fetch];
    - [src/lnd-fetch.ts]: [lndFetch];
    - [src/types.ts]: the configuration and result records.
    Line numbers in comments are those of these files.

    Strings are byte strings ([string] of [ascii]); buffers are lists of
    octets kept as [Z] in [0, 256); 32-bit words are [Z] with the wrap-around
    written out.  JavaScript numbers are restricted to the integers and the
    three non-finite values.  Asynchronous code is read sequentially: every
    [await] completes before the next statement runs. *)

From Stdlib Require Import ZArith List String Ascii Bool Lia.
From stdpp Require Import base option gmap strings list.

Import ListNotations.
Local Open Scope string_scope.
Local Open Scope Z_scope.

(** ** Octets and hexadecimal text *)

(** The double quote, by its code. *)
Definition dquote : ascii := ascii_of_nat 34.

Module Hex.

(** [Buffer.from(s, 'hex')] reads two hexadecimal digits per octet, in
    either case, and stops at the first pair that is not hexadecimal; a
    trailing single character is dropped. *)
Definition unhex (c : ascii) : option Z :=
  let n := Z.of_nat (nat_of_ascii c) in
  if (48 <=? n) && (n <=? 57) then Some (n - 48)
  else if (97 <=? n) && (n <=? 102) then Some (n - 87)
  else if (65 <=? n) && (n <=? 70) then Some (n - 55)
  else None.

Fixpoint decode (s : string) : list Z :=
  match s with
  | String a (String b rest) =>
      match unhex a, unhex b with
      | Some hi, Some lo => (16 * hi + lo) :: decode rest
      | _, _ => []
      end
  | _ => []
  end.

(** [buf.toString('hex')] and [digest('hex')] write lower-case digits. *)
Definition digit (n : Z) : ascii :=
  ascii_of_nat (Z.to_nat (if n <? 10 then 48 + n else 87 + n)).

Fixpoint encode (bs : list Z) : string :=
  match bs with
  | [] => EmptyString
  | b :: rest => String (digit (b / 16)) (String (digit (b mod 16)) (encode rest))
  end.

End Hex.

(** ** SHA-256 (FIPS 180-4), as computed by [crypto.createHash('sha256')] *)

Module Sha256.

Definition mask32 : Z := 0xffffffff.
Definition add32 (a b : Z) : Z := Z.land (a + b) mask32.
Definition not32 (a : Z) : Z := Z.lxor a mask32.
Definition rotr (n x : Z) : Z :=
  Z.lor (Z.shiftr x n) (Z.land (Z.shiftl x (32 - n)) mask32).

Definition Ch (x y z : Z) : Z := Z.lxor (Z.land x y) (Z.land (not32 x) z).
Definition Maj (x y z : Z) : Z :=
  Z.lxor (Z.lxor (Z.land x y) (Z.land x z)) (Z.land y z).
Definition Sigma0 (x : Z) : Z := Z.lxor (Z.lxor (rotr 2 x) (rotr 13 x)) (rotr 22 x).
Definition Sigma1 (x : Z) : Z := Z.lxor (Z.lxor (rotr 6 x) (rotr 11 x)) (rotr 25 x).
Definition sigma0 (x : Z) : Z := Z.lxor (Z.lxor (rotr 7 x) (rotr 18 x)) (Z.shiftr x 3).
Definition sigma1 (x : Z) : Z := Z.lxor (Z.lxor (rotr 17 x) (rotr 19 x)) (Z.shiftr x 10).

(** The constants are fractional parts of roots of the first primes: the
    initial hash value takes 32 bits of the square roots of the first
    eight, the round constants 32 bits of the cube roots of the first
    sixty-four. *)
Definition is_prime (n : Z) : bool :=
  List.forallb (fun d => negb (n mod Z.of_nat d =? 0)) (List.seq 2 (Z.to_nat n - 2)).

Definition primes : list Z :=
  Eval vm_compute in List.filter is_prime (List.map Z.of_nat (List.seq 2 310)).

(** The largest [r] in [[lo, hi)] with [r ^ 3 <= n], by bisection. *)
Fixpoint cube_root (fuel : nat) (lo hi n : Z) : Z :=
  match fuel with
  | O => lo
  | S fuel' =>
      let mid := (lo + hi) / 2 in
      if mid * mid * mid <=? n then cube_root fuel' mid hi n
      else cube_root fuel' lo mid n
  end.

Definition K : list Z :=
  Eval vm_compute in
    List.map (fun p => Z.land (cube_root 40 0 (2 ^ 36) (p * 2 ^ 96)) mask32) primes.

Definition H0 : list Z :=
  Eval vm_compute in
    List.map (fun p => Z.land (Z.sqrt (p * 2 ^ 64)) mask32) (List.firstn 8 primes).

(** Padding: a one bit, zeros up to 56 mod 64, the bit length on 8 octets. *)
Definition be_bytes (width : nat) (x : Z) : list Z :=
  List.map (fun i => Z.land (Z.shiftr x (8 * Z.of_nat i)) 0xff) (List.rev (List.seq 0 width)).

Definition pad (msg : list Z) : list Z :=
  let len := Z.of_nat (List.length msg) in
  let zeros := Z.to_nat ((55 - len) mod 64) in
  msg ++ [0x80] ++ List.repeat 0 zeros ++ be_bytes 8 (8 * len).

Fixpoint words (bs : list Z) : list Z :=
  match bs with
  | a :: b :: c :: d :: rest =>
      (Z.lor (Z.shiftl a 24) (Z.lor (Z.shiftl b 16) (Z.lor (Z.shiftl c 8) d))) :: words rest
  | _ => []
  end.

(** The message schedule is grown newest word first: [w] holds
    W(t-1), W(t-2), ... *)
Definition next_word (w : list Z) : Z :=
  add32 (add32 (sigma1 (List.nth 1 w 0)) (List.nth 6 w 0))
        (add32 (sigma0 (List.nth 14 w 0)) (List.nth 15 w 0)).

Fixpoint extend (n : nat) (w : list Z) : list Z :=
  match n with
  | O => w
  | S n' => extend n' (next_word w :: w)
  end.

Definition schedule (block : list Z) : list Z :=
  List.rev (extend 48 (List.rev block)).

Record regs := Regs { ra : Z; rb : Z; rc : Z; rd : Z; re : Z; rf : Z; rg : Z; rh : Z }.

Definition round (r : regs) (kw : Z * Z) : regs :=
  let t1 := add32 (add32 (add32 (rh r) (Sigma1 (re r))) (Ch (re r) (rf r) (rg r)))
                  (add32 (fst kw) (snd kw)) in
  let t2 := add32 (Sigma0 (ra r)) (Maj (ra r) (rb r) (rc r)) in
  Regs (add32 t1 t2) (ra r) (rb r) (rc r) (add32 (rd r) t1) (re r) (rf r) (rg r).

Definition regs_of (h : list Z) : regs :=
  Regs (List.nth 0 h 0) (List.nth 1 h 0) (List.nth 2 h 0) (List.nth 3 h 0)
       (List.nth 4 h 0) (List.nth 5 h 0) (List.nth 6 h 0) (List.nth 7 h 0).

Definition regs_list (r : regs) : list Z :=
  [ra r; rb r; rc r; rd r; re r; rf r; rg r; rh r].

Definition compress (h : list Z) (block : list Z) : list Z :=
  let r := List.fold_left round (List.combine K (schedule block)) (regs_of h) in
  List.map (fun p => add32 (fst p) (snd p)) (List.combine h (regs_list r)).

Fixpoint blocks (n : nat) (ws : list Z) (h : list Z) : list Z :=
  match n with
  | O => h
  | S n' => blocks n' (List.skipn 16 ws) (compress h (List.firstn 16 ws))
  end.

Definition digest (msg : list Z) : list Z :=
  let ws := words (pad msg) in
  List.flat_map (be_bytes 4) (blocks (List.length ws / 16)%nat ws H0).

End Sha256.


(** ** JavaScript values

    Data that reaches the code untyped ([JSON.parse], [res.json()]) is kept
    dynamic.  Finite numbers are the integers. *)

Set Warnings "-register-all".

Inductive number := Int (z : Z) | NaN | Infinity | NegInfinity.

Inductive Value :=
| VUndefined
| VNull
| VBool (b : bool)
| VNum (n : number)
| VStr (s : string)
| VArr (items : list Value)
| VObj (fields : list (string * Value)).

Inductive exn :=
| Error (message : string)
| TypeError (message : string)
| SyntaxError (message : string).

Definition message (e : exn) : string :=
  match e with Error m | TypeError m | SyntaxError m => m end.

Inductive Result (A : Type) :=
| Return (a : A)
| Throw (e : exn).
Arguments Return {A} a.
Arguments Throw {A} e.

(** What the embedding takes from the platform without looking inside:
    the JSON codec, base64, and the coercions of values that are not
    primitive or not in the range where the result is fixed below. *)
Class Platform := {
  JSON_parse : string -> Result Value;
  JSON_stringify : Value -> string;
  base64_decode : string -> list Z;
  base64_encode : list Z -> string;
  StringToNumber : string -> number;
  object_ToNumber : Value -> number;
  object_ToString : Value -> string;
  unsafe_integer_ToString : Z -> string;
  Buffer_from_object : Value -> Result (list Z)
}.

Module JS.

Fixpoint lookup (k : string) (fields : list (string * Value)) : Value :=
  match fields with
  | [] => VUndefined
  | (k', v) :: rest => if String.eqb k k' then v else lookup k rest
  end.

(** [v.k] for a key that no prototype defines: a [TypeError] on [null] and
    [undefined], the field of an object, [undefined] otherwise. *)
Definition get (v : Value) (k : string) : Result Value :=
  match v with
  | VUndefined | VNull =>
      Throw (TypeError ("Cannot read properties of " ++
                        (if v is VNull then "null" else "undefined") ++
                        " (reading '" ++ k ++ "')"))
  | VObj fields => Return (lookup k fields)
  | _ => Return VUndefined
  end.

Definition truthy (v : Value) : bool :=
  match v with
  | VUndefined | VNull => false
  | VBool b => b
  | VNum (Int z) => negb (z =? 0)
  | VNum NaN => false
  | VNum _ => true
  | VStr s => negb (String.eqb s "")
  | VArr _ | VObj _ => true
  end.

(** [hash === paymentHash] with [hash] a string. *)
Definition strict_equal_string (s : string) (v : Value) : bool :=
  match v with
  | VStr s' => String.eqb s s'
  | _ => false
  end.

(** [a > b] on numbers; any comparison with [NaN] is false. *)
Definition gt (a b : number) : bool :=
  match a, b with
  | Int x, Int y => y <? x
  | Int _, NegInfinity => true
  | Infinity, Int _ => true
  | Infinity, NegInfinity => true
  | _, _ => false
  end.

(** Decimal digits, most significant first; twenty are enough for the safe
    integers. *)
Fixpoint digits (fuel : nat) (n : Z) (acc : string) : string :=
  match fuel with
  | O => acc
  | S fuel' =>
      let acc' := String (ascii_of_nat (Z.to_nat (48 + n mod 10))) acc in
      if n <? 10 then acc' else digits fuel' (n / 10) acc'
  end.

Definition decimal (z : Z) : string :=
  if z <? 0 then String "-" (digits 20 (- z) "") else digits 20 z "".

Section Coercions.
Context `{Platform}.

(** [Number.prototype.toString]; decimal digits for the safe integers. *)
Definition Number_toString (n : number) : string :=
  match n with
  | NaN => "NaN"
  | Infinity => "Infinity"
  | NegInfinity => "-Infinity"
  | Int z => if Z.abs z <? 2 ^ 53 then decimal z else unsafe_integer_ToString z
  end.

(** The string a template literal splices in. *)
Definition ToString (v : Value) : string :=
  match v with
  | VUndefined => "undefined"
  | VNull => "null"
  | VBool b => if b then "true" else "false"
  | VNum n => Number_toString n
  | VStr s => s
  | VArr _ | VObj _ => object_ToString v
  end.

(** The number a relational comparison with a number sees. *)
Definition ToNumber (v : Value) : number :=
  match v with
  | VUndefined => NaN
  | VNull => Int 0
  | VBool b => Int (if b then 1 else 0)
  | VNum n => n
  | VStr s => StringToNumber s
  | VArr _ | VObj _ => object_ToNumber v
  end.

(** How the message of an argument-type error names the value it got:
    [undefined] and [null] by name, other primitives by type and value. *)
Definition received (v : Value) : string :=
  match v with
  | VUndefined => " Received undefined"
  | VNull => " Received null"
  | VBool b => " Received type boolean (" ++ (if b then "true" else "false") ++ ")"
  | VNum n => " Received type number (" ++ Number_toString n ++ ")"
  | VStr _ | VArr _ | VObj _ => EmptyString
  end.

(** [Buffer.from(v, 'base64')]. *)
Definition Buffer_from_base64 (v : Value) : Result (list Z) :=
  match v with
  | VStr s => Return (base64_decode s)
  | VArr _ | VObj _ => Buffer_from_object v
  | _ => Throw (TypeError ("The first argument must be of type string or an instance of Buffer, ArrayBuffer, or Array or an Array-like Object." ++ received v))
  end.
End Coercions.

(** Strings: the operations the middleware uses on the credential. *)
Definition lower (c : ascii) : ascii :=
  let n := nat_of_ascii c in
  if (Nat.leb 65 n && Nat.leb n 90)%bool then ascii_of_nat (n + 32) else c.

Fixpoint toLowerCase (s : string) : string :=
  match s with
  | EmptyString => EmptyString
  | String c rest => String (lower c) (toLowerCase rest)
  end.

Definition startsWith (p s : string) : bool := String.prefix p s.

Fixpoint lastIndexOf_from (c : ascii) (s : string) (i found : Z) : Z :=
  match s with
  | EmptyString => found
  | String a rest => lastIndexOf_from c rest (i + 1) (if Ascii.eqb a c then i else found)
  end.

(** [s.lastIndexOf(c)], [-1] when [c] does not occur. *)
Definition lastIndexOf (c : ascii) (s : string) : Z := lastIndexOf_from c s 0 (-1).

(** [s.slice(from)] and [s.slice(from, to)] for indices that are not
    negative, the only ones the code passes. *)
Definition slice_from (from : Z) (s : string) : string :=
  String.substring (Z.to_nat from) (String.length s - Z.to_nat from) s.

Definition slice (from to : Z) (s : string) : string :=
  String.substring (Z.to_nat from) (Z.to_nat (to - from)) s.

Definition octets (s : string) : list Z :=
  List.map (fun c => Z.of_nat (nat_of_ascii c)) (list_ascii_of_string s).

Definition text (bs : list Z) : string :=
  string_of_list_ascii (List.map (fun b => ascii_of_nat (Z.to_nat b)) bs).

End JS.


(** ** The process: environment, network, and a monad for effects *)

(** [RequestInit], with the members the sources set or forward. *)
Record RequestInit := {
  method : option string;
  headers : gmap string string;
  body : option string
}.

(** The members of a fetch [Response] the sources read; [json] is the
    outcome of [res.json()]. *)
Record Response := {
  status : Z;
  statusText : string;
  ok : bool;
  json : Result Value
}.

(** One call of the global [fetch], with the value that
    [process.env.NODE_TLS_REJECT_UNAUTHORIZED] has while it is made. *)
Record FetchCall := {
  call_url : string;
  call_init : RequestInit;
  call_tls : option string
}.

(** Whatever answers [fetch]: the protected server and the LND node. *)
Class Network := {
  Net : Type;
  respond : Net -> FetchCall -> Result Response * Net
}.

(** src/types.ts *)
Record LndConfig := {
  restHost : string;
  macaroon : string;
  skipTlsVerify : option bool
}.

Record L402Proof := {
  paid : bool;
  preimage : string;
  paymentHash : Value;
  service : Value
}.

(** The members of an Express request the middleware reads, and the
    [l402] member it writes. *)
Record Request := {
  authorization : option string;
  req_method : string;
  path : string;
  req_body : Value;
  l402_proof : option L402Proof
}.

(** An Express response, as far as [status], [setHeader] and [json] change it. *)
Record ServerResponse := {
  statusCode : Z;
  res_headers : gmap string string;
  res_body : option Value
}.

Record L402MiddlewareConfig := {
  node : LndConfig;
  price : number;
  description : option string;
  priceFn : option (Request -> Result number)
}.

Record L402ClientConfig := {
  client_node : LndConfig;
  maxAutoPaySats : option number
}.

Record L402FetchResult := {
  data : Value;
  result_paid : bool;
  result_price : Value;
  result_preimage : option string
}.

Section Process.
Context `{Platform} `{Network}.

Record World := {
  tls_env : option string;           (* process.env.NODE_TLS_REJECT_UNAUTHORIZED *)
  net : Net;
  calls : list FetchCall;            (* every call of fetch, oldest first *)
  console_error : list string;
  clock : Z;                         (* Date.now() *)
  tokenCache : gmap string string;   (* the Map of createL402Client *)
  next_calls : list Request          (* the requests handed to next() *)
}.

Definition M (A : Type) : Type := World -> Result A * World.

Definition ret {A} (a : A) : M A := fun w => (Return a, w).
Definition throw {A} (e : exn) : M A := fun w => (Throw e, w).
Definition bind {A B} (m : M A) (k : A -> M B) : M B :=
  fun w => match m w with
           | (Return a, w') => k a w'
           | (Throw e, w') => (Throw e, w')
           end.
Definition lift {A} (r : Result A) : M A := fun w => (r, w).

(** [try { m } catch (err) { h err }] *)
Definition try_catch {A} (m : M A) (h : exn -> M A) : M A :=
  fun w => match m w with
           | (Return a, w') => (Return a, w')
           | (Throw e, w') => h e w'
           end.

(** [try { return await m } finally { f }] *)
Definition try_finally {A} (m : M A) (f : M unit) : M A :=
  fun w => match m w with
           | (r, w') =>
               match f w' with
               | (Return _, w'') => (r, w'')
               | (Throw e, w'') => (Throw e, w'')
               end
           end.

Definition set_tls_env (v : option string) : M unit :=
  fun w => (Return tt,
            {| tls_env := v; net := net w; calls := calls w;
               console_error := console_error w; clock := clock w;
               tokenCache := tokenCache w; next_calls := next_calls w |}).

Definition get_tls_env : M (option string) := fun w => (Return (tls_env w), w).

Definition log_error (line : string) : M unit :=
  fun w => (Return tt,
            {| tls_env := tls_env w; net := net w; calls := calls w;
               console_error := console_error w ++ [line]; clock := clock w;
               tokenCache := tokenCache w; next_calls := next_calls w |}).

Definition Date_now : M number := fun w => (Return (Int (clock w)), w).

Definition cache_get (url : string) : M (option string) :=
  fun w => (Return (tokenCache w !! url), w).

Definition cache_set (url token : string) : M unit :=
  fun w => (Return tt,
            {| tls_env := tls_env w; net := net w; calls := calls w;
               console_error := console_error w; clock := clock w;
               tokenCache := <[url := token]> (tokenCache w);
               next_calls := next_calls w |}).

(** [next()]: the protected handler runs on the request as it is now. *)
Definition next (req : Request) : M unit :=
  fun w => (Return tt,
            {| tls_env := tls_env w; net := net w; calls := calls w;
               console_error := console_error w; clock := clock w;
               tokenCache := tokenCache w; next_calls := next_calls w ++ [req] |}).

(** The global [fetch]: the call is logged and the network answers. *)
Definition fetch (url : string) (init : RequestInit) : M Response :=
  fun w =>
    let call := {| call_url := url; call_init := init; call_tls := tls_env w |} in
    let (r, n) := respond (net w) call in
    (r, {| tls_env := tls_env w; net := n; calls := calls w ++ [call];
           console_error := console_error w; clock := clock w;
           tokenCache := tokenCache w; next_calls := next_calls w |}).

End Process.

Notation "'do' x <- m ; k" := (bind m (fun x => k))
  (at level 10, x name, m at level 100, k at level 200).
Notation "'run' m ; k" := (bind m (fun _ => k))
  (at level 10, m at level 100, k at level 200).

(** ** src/lnd-fetch.ts *)

Section LndFetch.
Context `{Platform} `{Network}.

(** Whether an optional boolean is truthy. *)
Definition enabled (flag : option bool) : bool :=
  match flag with Some true => true | _ => false end.

Definition lndFetch (url : string) (init : RequestInit)
    (skipTlsVerify : option bool) : M Response :=
  if negb (enabled skipTlsVerify) then fetch url init
  else
    do saved <- get_tls_env ;
    run set_tls_env (Some "0") ;
    try_finally (fetch url init)
      (match saved with
       | None => set_tls_env None
       | Some v => set_tls_env (Some v)
       end).

End LndFetch.

(** ** The middleware: src/index.ts, lines 28 to 244 *)

Section Middleware.
Context `{Platform} `{Network}.

Definition createServiceMacaroon (paymentHash : string) (service : string) : M string :=
  do issuedAt <- Date_now ;
  let macaroonData :=
    VObj [ ("version", VNum (Int 1));
           ("paymentHash", VStr paymentHash);
           ("service", VStr service);
           ("issuedAt", VNum issuedAt) ] in
  ret (base64_encode (JS.octets (JSON_stringify macaroonData))).

(** Every exception inside the [try] gives [null]: a [SyntaxError] of
    [JSON.parse], or the [TypeError] of reading a member of [null]. *)
Definition parseServiceMacaroon (macaroonBase64 : string) : option Value :=
  match JSON_parse (JS.text (base64_decode macaroonBase64)) with
  | Throw _ => None
  | Return data =>
      match JS.get data "version" with
      | Throw _ => None
      | Return version =>
          if JS.truthy version then
            match JS.get data "paymentHash" with
            | Throw _ => None
            | Return paymentHash => if JS.truthy paymentHash then Some data else None
            end
          else None
      end
  end.

(** The second argument is declared a string; the middleware passes a
    member of parsed JSON, so [===] is taken on a value. *)
Definition verifyPreimage (preimage : string) (paymentHash : Value) : bool :=
  let hash := Hex.encode (Sha256.digest (Hex.decode preimage)) in
  JS.strict_equal_string hash paymentHash.

Definition createInvoice (restHost macaroon : string) (amount : number)
    (memo : string) : M Value :=
  do res <- fetch (restHost ++ "/v1/invoices")
              {| method := Some "POST";
                 headers := <["Content-Type" := "application/json"]>
                              (<["Grpc-Metadata-macaroon" := macaroon]> ∅);
                 body := Some (JSON_stringify
                                 (VObj [ ("value", VStr (JS.Number_toString amount));
                                         ("memo", VStr memo) ])) |} ;
  if negb (ok res) then
    throw (Error ("LND invoice creation failed: " ++
                  JS.Number_toString (Int (status res)) ++ " " ++ statusText res))
  else lift (json res).

Definition set_status (code : Z) (res : ServerResponse) : ServerResponse :=
  {| statusCode := code; res_headers := res_headers res; res_body := res_body res |}.

Definition setHeader (key value : string) (res : ServerResponse) : ServerResponse :=
  {| statusCode := statusCode res; res_headers := <[key := value]> (res_headers res);
     res_body := res_body res |}.

Definition send_json (payload : Value) (res : ServerResponse) : ServerResponse :=
  {| statusCode := statusCode res; res_headers := res_headers res;
     res_body := Some payload |}.

Definition attach (proof : L402Proof) (req : Request) : Request :=
  {| authorization := authorization req; req_method := req_method req;
     path := path req; req_body := req_body req; l402_proof := Some proof |}.

(** "Auth header present but invalid" *)
Definition invalid_token (req : Request) (res : ServerResponse)
    : M (Request * ServerResponse) :=
  ret (req, send_json (VObj [("error", VStr "Invalid L402 token")]) (set_status 401 res)).

(** The [try] block of "No auth: issue a 402 challenge". *)
Definition challenge_attempt (config : L402MiddlewareConfig) (req : Request)
    (res : ServerResponse) : M (Request * ServerResponse) :=
  do finalPrice <- match priceFn config with
                   | Some f => lift (f req)
                   | None => ret (price config)
                   end;
  let memo := match description config with
              | Some d => if JS.truthy (VStr d) then d
                          else "L402 access: " ++ req_method req ++ " " ++ path req
              | None => "L402 access: " ++ req_method req ++ " " ++ path req
              end in
  do invoice <- createInvoice (restHost (node config)) (macaroon (node config))
                  finalPrice memo;
  do r_hash <- lift (JS.get invoice "r_hash");
  do hash_octets <- lift (JS.Buffer_from_base64 r_hash);
  let paymentHashHex := Hex.encode hash_octets in
  do serviceMacaroon <- createServiceMacaroon paymentHashHex (path req);
  do payment_request <- lift (JS.get invoice "payment_request");
  let res1 := set_status 402 res in
  let res2 := setHeader "WWW-Authenticate"
                ("L402 macaroon=" ++ String dquote (serviceMacaroon ++ String dquote
                   (", invoice=" ++ String dquote
                      (JS.ToString payment_request ++ String dquote EmptyString))))
                res1 in
  ret (req, send_json
              (VObj [ ("code", VNum (Int 402));
                      ("message", VStr "Payment Required");
                      ("invoice", payment_request);
                      ("macaroon", VStr serviceMacaroon);
                      ("price", VNum finalPrice);
                      ("description", VStr memo) ])
              res2).

(** Its [catch]: the error is logged and the caller gets a 500. *)
Definition issue_challenge (config : L402MiddlewareConfig) (req : Request)
    (res : ServerResponse) : M (Request * ServerResponse) :=
  try_catch (challenge_attempt config req res)
    (fun err =>
       run log_error ("L402 middleware error: " ++ message err);
       ret (req, send_json (VObj [("error", VStr "Payment gateway error")])
                   (set_status 500 res))).

Definition l402_handler (config : L402MiddlewareConfig) (req : Request)
    (res : ServerResponse) : M (Request * ServerResponse) :=
  match authorization req with
  | Some authHeader =>
      if JS.truthy (VStr authHeader) && JS.startsWith "l402 " (JS.toLowerCase authHeader) then
        let token := JS.slice_from 5 authHeader in
        let colonIndex := JS.lastIndexOf ":" token in
        if colonIndex >? 0 then
          let macaroonB64 := JS.slice 0 colonIndex token in
          let preimage := JS.slice_from (colonIndex + 1) token in
          match parseServiceMacaroon macaroonB64 with
          | Some macaroonData =>
              do paymentHash <- lift (JS.get macaroonData "paymentHash") ;
              if verifyPreimage preimage paymentHash then
                do service <- lift (JS.get macaroonData "service") ;
                let req' := attach {| paid := true; preimage := preimage;
                                      paymentHash := paymentHash; service := service |} req in
                run next req' ;
                ret (req', res)
              else invalid_token req res
          | None => invalid_token req res
          end
        else invalid_token req res
      else issue_challenge config req res
  | None => issue_challenge config req res
  end.

(** [l402(config)]: the environment is written when the middleware is
    built; the closure it returns is [l402_handler config]. *)
Definition l402 (config : L402MiddlewareConfig)
    : M (Request -> ServerResponse -> M (Request * ServerResponse)) :=
  run (if enabled (skipTlsVerify (node config))
       then set_tls_env (Some "0") else ret tt) ;
  ret (l402_handler config).

End Middleware.

(** ** src/client.ts *)

Section Client.
Context `{Platform} `{Network}.

Definition payInvoice (restHost macaroon : string) (paymentRequest : Value)
    (skipTlsVerify : option bool) : M Value :=
  do res <- lndFetch (restHost ++ "/v1/channels/transactions")
              {| method := Some "POST";
                 headers := <["Content-Type" := "application/json"]>
                              (<["Grpc-Metadata-macaroon" := macaroon]> ∅);
                 body := Some (JSON_stringify
                                 (VObj [("payment_request", paymentRequest)])) |}
              skipTlsVerify ;
  if negb (ok res) then
    throw (Error ("LND payment failed: " ++
                  JS.Number_toString (Int (status res)) ++ " " ++ statusText res))
  else lift (json res).

Definition with_headers (options : RequestInit) (hs : gmap string string) : RequestInit :=
  {| method := method options; headers := hs; body := body options |}.

Definition l402Fetch (config : L402ClientConfig) (url : string)
    (options : RequestInit) : M L402FetchResult :=
  let maxAutoPaySats := default (Int 10000) (maxAutoPaySats config) in
  let node := client_node config in
  do cachedToken <- cache_get url ;
  let headers :=
    match cachedToken with
    | Some t => if JS.truthy (VStr t) then <["Authorization" := t]> (headers options)
                else headers options
    | None => headers options
    end in
  do res <- fetch url (with_headers options headers) ;
  if negb (status res =? 402) then
    do data <- lift (json res) ;
    ret {| data := data; result_paid := false;
           result_price := VUndefined; result_preimage := None |}
  else
    do challenge <- lift (json res) ;
    do price <- lift (JS.get challenge "price") ;
    if JS.gt (JS.ToNumber price) maxAutoPaySats then
      throw (Error ("L402 price (" ++ JS.ToString price ++
                    " sats) exceeds maxAutoPaySats (" ++
                    JS.Number_toString maxAutoPaySats ++
                    "). Increase the limit or pay manually."))
    else
      do invoice <- lift (JS.get challenge "invoice") ;
      do payment <- payInvoice (restHost node) (macaroon node) invoice
                      (skipTlsVerify node) ;
      do payment_error <- lift (JS.get payment "payment_error") ;
      if JS.truthy payment_error then
        throw (Error ("Lightning payment failed: " ++ JS.ToString payment_error))
      else
        do payment_preimage <- lift (JS.get payment "payment_preimage") ;
        do preimage_octets <- lift (JS.Buffer_from_base64 payment_preimage) ;
        let preimageHex := Hex.encode preimage_octets in
        do challenge_macaroon <- lift (JS.get challenge "macaroon") ;
        let l402Token := "L402 " ++ JS.ToString challenge_macaroon ++ ":" ++ preimageHex in
        run cache_set url l402Token ;
        do authedRes <- fetch url
                          (with_headers options (<["Authorization" := l402Token]> headers)) ;
        do data <- lift (json authedRes) ;
        ret {| data := data; result_paid := true;
               result_price := price; result_preimage := Some preimageHex |}.

Definition cache_clear : M unit :=
  fun w => (Return tt,
            {| tls_env := tls_env w; net := net w; calls := calls w;
               console_error := console_error w; clock := clock w;
               tokenCache := ∅; next_calls := next_calls w |}).

Record L402Client := {
  client_fetch : string -> RequestInit -> M L402FetchResult;
  clearCache : M unit;
  cacheSize : M nat
}.

(** [createL402Client(config)]: a fresh, empty [Map], and the three
    closures over it. *)
Definition createL402Client (config : L402ClientConfig) : M L402Client :=
  run cache_clear ;
  ret {| client_fetch := l402Fetch config;
         clearCache := cache_clear;
         cacheSize := fun w => (Return (size (tokenCache w)), w) |}.

End Client.

(** ** Vocabulary of the statements

    Names for what the theorems speak of: the commitment, the calls the
    client makes, the outcomes of a payment, and the parts of a credential. *)

(** [commit] is the hash the tests compute for a preimage:
    [createHash('sha256').update(Buffer.from(s, 'hex')).digest('hex')]. *)
Definition commit (secret : string) : string :=
  Hex.encode (Sha256.digest (Hex.decode secret)).

Definition octet (b : Z) : Prop := 0 <= b < 256.

Section Vocabulary.
Context `{Platform} `{Network}.

(** The call [fetch] makes in a world. *)
Definition call_of (w : World) (url : string) (init : RequestInit) : FetchCall :=
  {| call_url := url; call_init := init; call_tls := tls_env w |}.

(** The headers of the first attempt: the caller's, and the cached
    credential when there is one (client lines 93 to 101). *)
Definition initial_headers (cache : gmap string string) (url : string)
    (options : RequestInit) : gmap string string :=
  match cache !! url with
  | Some t => if JS.truthy (VStr t) then <["Authorization" := t]> (headers options)
              else headers options
  | None => headers options
  end.

(** The ceiling in force: [maxAutoPaySats = 10000] by default. *)
Definition ceiling (config : L402ClientConfig) : number :=
  default (Int 10000) (maxAutoPaySats config).

(** The request [payInvoice] sends to the LND node. *)
Definition settlement_url (config : L402ClientConfig) : string :=
  restHost (client_node config) ++ "/v1/channels/transactions".

Definition settlement_init (config : L402ClientConfig) (invoice : Value) : RequestInit :=
  {| method := Some "POST";
     headers := <["Content-Type" := "application/json"]>
                  (<["Grpc-Metadata-macaroon" := macaroon (client_node config)]> ∅);
     body := Some (JSON_stringify (VObj [("payment_request", invoice)])) |}.

(** The outcomes of the settlement call that make the payment step fail:
    the call rejects, the node answers with a status that is not a success,
    or the answer carries a populated [payment_error]. *)
Definition payment_failed (out : Result Response) : Prop :=
  match out with
  | Throw _ => True
  | Return r =>
      ok r = false \/
      exists payment reason,
        json r = Return payment /\
        JS.get payment "payment_error" = Return reason /\
        JS.truthy reason = true
  end.

(** The credential built from the challenge's macaroon and the octets of
    the preimage (client line 142). *)
Definition credential (challenge_macaroon : Value) (preimage_octets : list Z) : string :=
  "L402 " ++ JS.ToString challenge_macaroon ++ ":" ++ Hex.encode preimage_octets.

(** Whether the header is there and names the scheme (middleware line 170). *)
Definition l402_scheme (authHeader : option string) : bool :=
  match authHeader with
  | Some h => JS.truthy (VStr h) && JS.startsWith "l402 " (JS.toLowerCase h)
  | None => false
  end.

(** The parts of a credential [L402 <macaroon>:<preimage>], split at the
    last colon (middleware lines 171 to 176). *)
Definition token_of (authHeader : string) : string := JS.slice_from 5 authHeader.

Definition colon_of (authHeader : string) : Z := JS.lastIndexOf ":" (token_of authHeader).

Definition macaroon_of (authHeader : string) : string :=
  JS.slice 0 (colon_of authHeader) (token_of authHeader).

Definition preimage_of (authHeader : string) : string :=
  JS.slice_from (colon_of authHeader + 1) (token_of authHeader).

(** What the handler may leave on the request: nothing, or a proof made of
    the presented credential, whose preimage verifies against the payment
    hash of its macaroon. *)
Definition untouched_or_verified (req req' : Request) (w w' : World) : Prop :=
  (req' = req /\ next_calls w' = next_calls w) \/
  exists authHeader macaroonData proof,
    authorization req = Some authHeader /\
    parseServiceMacaroon (macaroon_of authHeader) = Some macaroonData /\
    JS.get macaroonData "paymentHash" = Return (paymentHash proof) /\
    preimage proof = preimage_of authHeader /\
    verifyPreimage (preimage_of authHeader) (paymentHash proof) = true /\
    req' = attach proof req.

End Vocabulary.

(** ** More vocabulary: the calls and answers of the middleware *)

(** Whether a character occurs in a string. *)
Fixpoint contains (c : ascii) (s : string) : bool :=
  match s with
  | EmptyString => false
  | String a rest => Ascii.eqb a c || contains c rest
  end.

Section Exchanges.
Context `{Platform} `{Network}.

(** The price of a request: [priceFn ? await priceFn(req) : price]. *)
Definition price_of (config : L402MiddlewareConfig) (req : Request) : Result number :=
  match priceFn config with
  | Some f => f req
  | None => Return (price config)
  end.

(** The memo of the invoice: the description, or one made of the method
    and the path (middleware line 203). *)
Definition memo_of (config : L402MiddlewareConfig) (req : Request) : string :=
  match description config with
  | Some d => if JS.truthy (VStr d) then d
              else "L402 access: " ++ req_method req ++ " " ++ path req
  | None => "L402 access: " ++ req_method req ++ " " ++ path req
  end.

(** The request [createInvoice] sends to the LND node. *)
Definition invoice_call (config : L402MiddlewareConfig) (amount : number) (memo : string)
    (w : World) : FetchCall :=
  {| call_url := restHost (node config) ++ "/v1/invoices";
     call_init :=
       {| method := Some "POST";
          headers := <["Content-Type" := "application/json"]>
                       (<["Grpc-Metadata-macaroon" := macaroon (node config)]> ∅);
          body := Some (JSON_stringify
                          (VObj [ ("value", VStr (JS.Number_toString amount));
                                  ("memo", VStr memo) ])) |};
     call_tls := tls_env w |}.

(** The call [payInvoice] makes through [lndFetch]: it alone sees the TLS
    check switched off, and only when [skipTlsVerify] is set. *)
Definition settlement_call (config : L402ClientConfig) (invoice : Value) (w : World)
    : FetchCall :=
  {| call_url := settlement_url config;
     call_init := settlement_init config invoice;
     call_tls := if enabled (skipTlsVerify (client_node config)) then Some "0"
                 else tls_env w |}.

(** What [createServiceMacaroon] serialises. *)
Definition macaroon_value (hash service : string) (issuedAt : Z) : Value :=
  VObj [ ("version", VNum (Int 1));
         ("paymentHash", VStr hash);
         ("service", VStr service);
         ("issuedAt", VNum (Int issuedAt)) ].

(** The two error answers of the middleware. *)
Definition unauthorized (res : ServerResponse) : ServerResponse :=
  send_json (VObj [("error", VStr "Invalid L402 token")]) (set_status 401 res).

Definition gateway_error (res : ServerResponse) : ServerResponse :=
  send_json (VObj [("error", VStr "Payment gateway error")]) (set_status 500 res).

(** The world after a line has gone to [console.error]. *)
Definition logged (line : string) (w : World) : World := snd (log_error line w).

(** The world after [fetch] has made a call and the network, now [n], has
    answered it. *)
Definition after_call (w : World) (call : FetchCall) (n : Net) : World :=
  {| tls_env := tls_env w; net := n; calls := calls w ++ [call];
     console_error := console_error w; clock := clock w;
     tokenCache := tokenCache w; next_calls := next_calls w |}.

(** The world after [next()] has run on a request. *)
Definition handed_on (req : Request) (w : World) : World := snd (next req w).

(** The world after [tokenCache.set]. *)
Definition cached (url token : string) (w : World) : World := snd (cache_set url token w).

(** [`${res.status} ${res.statusText}`], the tail of the two messages about
    a node that answers with a failure status. *)
Definition http_failure (r : Response) : string :=
  JS.Number_toString (Int (status r)) ++ " " ++ statusText r.

(** The macaroon issued for a payment hash, a route and a time. *)
Definition issued_macaroon (hash service : string) (issuedAt : Z) : string :=
  base64_encode (JS.octets (JSON_stringify (macaroon_value hash service issuedAt))).

(** The [WWW-Authenticate] header of a challenge (middleware line 229). *)
Definition www_authenticate (mac : string) (payment_request : Value) : string :=
  "L402 macaroon=" ++ String dquote (mac ++ String dquote
    (", invoice=" ++ String dquote
       (JS.ToString payment_request ++ String dquote EmptyString))).

(** The challenge: status 402, the header, and the body (middleware lines
    226 to 238). *)
Definition challenge_response (res : ServerResponse) (mac : string)
    (payment_request : Value) (amount : number) (memo : string) : ServerResponse :=
  send_json
    (VObj [ ("code", VNum (Int 402));
            ("message", VStr "Payment Required");
            ("invoice", payment_request);
            ("macaroon", VStr mac);
            ("price", VNum amount);
            ("description", VStr memo) ])
    (setHeader "WWW-Authenticate" (www_authenticate mac payment_request)
       (set_status 402 res)).

(** The proof the middleware attaches for a credential. *)
Definition proof_of (authHeader : string) (hash service : Value) : L402Proof :=
  {| paid := true; preimage := preimage_of authHeader;
     paymentHash := hash; service := service |}.

(** The call of [l402Fetch] to its target, with the headers it carries. *)
Definition target_call (url : string) (options : RequestInit) (hs : gmap string string)
    (w : World) : FetchCall :=
  call_of w url (with_headers options hs).

End Exchanges.

(** ** A platform and a network to run the model on

    [Node] implements the platform operations for the data the protocol
    exchanges: RFC 4648 base64, and JSON over integers, strings, literals,
    arrays and objects.  It is a fragment of the platform, used only to run
    the scenarios: numbers are integers below [2 ^ 53] in magnitude written
    without fraction or exponent, in JSON text as in strings that are
    converted to numbers; outside of that [JSON.parse], [Number] and
    [Number.prototype.toString] differ from it.  The properties of the
    program are stated over any [Platform].  [Script] is a network that
    answers from a list, one answer per call, as a sequence of
    [mockResolvedValueOnce] does. *)

Module Node.

Definition alphabet : string :=
  "ABCDEFGHIJKLMNOPQRSTUVWXYZabcdefghijklmnopqrstuvwxyz0123456789+/".

Definition sextet_char (n : Z) : ascii :=
  match String.get (Z.to_nat n) alphabet with Some c => c | None => "="%char end.

Fixpoint b64_encode (bs : list Z) : string :=
  match bs with
  | [] => ""
  | [a] =>
      String (sextet_char (a / 4)) (String (sextet_char (a mod 4 * 16)) "==")
  | [a; b] =>
      String (sextet_char (a / 4))
        (String (sextet_char (a mod 4 * 16 + b / 16))
           (String (sextet_char (b mod 16 * 4)) "="))
  | a :: b :: c :: rest =>
      String (sextet_char (a / 4))
        (String (sextet_char (a mod 4 * 16 + b / 16))
           (String (sextet_char (b mod 16 * 4 + c / 64))
              (String (sextet_char (c mod 64)) (b64_encode rest))))
  end.

(** Both alphabets are read; other characters are passed over. *)
Definition sextet (c : ascii) : option Z :=
  let n := Z.of_nat (nat_of_ascii c) in
  if (65 <=? n) && (n <=? 90) then Some (n - 65)
  else if (97 <=? n) && (n <=? 122) then Some (n - 71)
  else if (48 <=? n) && (n <=? 57) then Some (n + 4)
  else if (n =? 43) || (n =? 45) then Some 62
  else if (n =? 47) || (n =? 95) then Some 63
  else None.

(** [acc] holds [bits] pending bits; padding ends the input. *)
Fixpoint b64_decode_from (s : string) (acc bits : Z) : list Z :=
  match s with
  | EmptyString => []
  | String c rest =>
      if Ascii.eqb c "="%char then []
      else match sextet c with
           | None => b64_decode_from rest acc bits
           | Some v =>
               let acc' := acc * 64 + v in
               let bits' := bits + 6 in
               if 8 <=? bits'
               then (acc' / 2 ^ (bits' - 8)) ::
                    b64_decode_from rest (acc' mod 2 ^ (bits' - 8)) (bits' - 8)
               else b64_decode_from rest acc' bits'
           end
  end.

Definition b64_decode (s : string) : list Z := b64_decode_from s 0 0.

(** *** JSON text to values *)

Definition is_ws (c : ascii) : bool :=
  let n := nat_of_ascii c in
  (Nat.eqb n 32 || Nat.eqb n 9 || Nat.eqb n 10 || Nat.eqb n 13)%bool.

Fixpoint skip_ws (s : list ascii) : list ascii :=
  match s with
  | c :: rest => if is_ws c then skip_ws rest else s
  | [] => []
  end.

Definition is_digit (c : ascii) : bool :=
  let n := nat_of_ascii c in (Nat.leb 48 n && Nat.leb n 57)%bool.

Fixpoint read_digits (s : list ascii) (acc : Z) : Z * list ascii :=
  match s with
  | c :: rest =>
      if is_digit c then read_digits rest (10 * acc + Z.of_nat (nat_of_ascii c) - 48)
      else (acc, s)
  | [] => (acc, [])
  end.

(** An integer literal; a fraction or an exponent is outside the fragment. *)
Definition read_integer (s : list ascii) : option (Z * list ascii) :=
  match s with
  | c :: rest =>
      if negb (is_digit c) then None
      else if (Ascii.eqb c "0"%char && match rest with d :: _ => is_digit d | [] => false end)%bool
           then None
           else let (n, rest') := read_digits s 0 in
                match rest' with
                | d :: _ =>
                    if (Ascii.eqb d "."%char || Ascii.eqb d "e"%char || Ascii.eqb d "E"%char)%bool
                    then None else Some (n, rest')
                | [] => Some (n, rest')
                end
  | [] => None
  end.

(** Code points of [\uXXXX] escapes are written as UTF-8. *)
Definition utf8 (cp : Z) : list ascii :=
  let ch n := ascii_of_nat (Z.to_nat n) in
  if cp <? 0x80 then [ch cp]
  else if cp <? 0x800 then [ch (0xC0 + cp / 64); ch (0x80 + cp mod 64)]
  else [ch (0xE0 + cp / 4096); ch (0x80 + (cp / 64) mod 64); ch (0x80 + cp mod 64)].

(** The characters after the opening quote, up to the closing one. *)
Fixpoint read_string (s : list ascii) : option (list ascii * list ascii) :=
  match s with
  | [] => None
  | c :: rest =>
      if Ascii.eqb c dquote then Some ([], rest)
      else if Nat.ltb (nat_of_ascii c) 32 then None
      else if Ascii.eqb c "\"%char then
        match rest with
        | e :: rest' =>
            let plain (x : ascii) :=
              match read_string rest' with
              | Some (cs, r) => Some (x :: cs, r)
              | None => None
              end in
            if Ascii.eqb e "u"%char then
              match rest' with
              | h1 :: h2 :: h3 :: h4 :: rest'' =>
                  match Hex.unhex h1, Hex.unhex h2, Hex.unhex h3, Hex.unhex h4 with
                  | Some a, Some b, Some c', Some d =>
                      match read_string rest'' with
                      | Some (cs, r) =>
                          Some ((utf8 (4096 * a + 256 * b + 16 * c' + d) ++ cs)%list, r)
                      | None => None
                      end
                  | _, _, _, _ => None
                  end
              | _ => None
              end
            else if Ascii.eqb e "n"%char then plain (ascii_of_nat 10)
            else if Ascii.eqb e "t"%char then plain (ascii_of_nat 9)
            else if Ascii.eqb e "r"%char then plain (ascii_of_nat 13)
            else if Ascii.eqb e "b"%char then plain (ascii_of_nat 8)
            else if Ascii.eqb e "f"%char then plain (ascii_of_nat 12)
            else if (Ascii.eqb e dquote || Ascii.eqb e "\"%char || Ascii.eqb e "/"%char)%bool
                 then plain e
            else None
        | [] => None
        end
      else match read_string rest with
           | Some (cs, r) => Some (c :: cs, r)
           | None => None
           end
  end.

Definition expect (word : string) (s : list ascii) : option (list ascii) :=
  let w := list_ascii_of_string word in
  if String.eqb (string_of_list_ascii (List.firstn (List.length w) s)) word
  then Some (List.skipn (List.length w) s) else None.

(** A member written twice keeps its first place and its last value. *)
Fixpoint set_field (k : string) (v : Value) (fields : list (string * Value))
    : list (string * Value) :=
  match fields with
  | [] => [(k, v)]
  | (k', v') :: rest =>
      if String.eqb k k' then (k, v) :: rest else (k', v') :: set_field k v rest
  end.

Fixpoint read_value (fuel : nat) (s : list ascii) : option (Value * list ascii) :=
  match fuel with
  | O => None
  | S fuel' =>
      match skip_ws s with
      | [] => None
      | c :: rest =>
          if Ascii.eqb c dquote then
            match read_string rest with
            | Some (cs, r) => Some (VStr (string_of_list_ascii cs), r)
            | None => None
            end
          else if Ascii.eqb c "["%char then
            match skip_ws rest with
            | d :: r => if Ascii.eqb d "]"%char then Some (VArr [], r)
                        else read_items fuel' rest []
            | [] => None
            end
          else if Ascii.eqb c "{"%char then
            match skip_ws rest with
            | d :: r => if Ascii.eqb d "}"%char then Some (VObj [], r)
                        else read_members fuel' rest []
            | [] => None
            end
          else if Ascii.eqb c "t"%char then
            match expect "rue" rest with Some r => Some (VBool true, r) | None => None end
          else if Ascii.eqb c "f"%char then
            match expect "alse" rest with Some r => Some (VBool false, r) | None => None end
          else if Ascii.eqb c "n"%char then
            match expect "ull" rest with Some r => Some (VNull, r) | None => None end
          else if Ascii.eqb c "-"%char then
            match read_integer rest with
            | Some (n, r) => Some (VNum (Int (- n)), r)
            | None => None
            end
          else
            match read_integer (c :: rest) with
            | Some (n, r) => Some (VNum (Int n), r)
            | None => None
            end
      end
  end
with read_items (fuel : nat) (s : list ascii) (acc : list Value)
    : option (Value * list ascii) :=
  match fuel with
  | O => None
  | S fuel' =>
      match read_value fuel' s with
      | Some (v, r) =>
          match skip_ws r with
          | d :: r' =>
              if Ascii.eqb d ","%char then read_items fuel' r' (acc ++ [v])%list
              else if Ascii.eqb d "]"%char then Some (VArr (acc ++ [v])%list, r')
              else None
          | [] => None
          end
      | None => None
      end
  end
with read_members (fuel : nat) (s : list ascii) (acc : list (string * Value))
    : option (Value * list ascii) :=
  match fuel with
  | O => None
  | S fuel' =>
      match skip_ws s with
      | q :: r0 =>
          if Ascii.eqb q dquote then
            match read_string r0 with
            | Some (k, r1) =>
                match skip_ws r1 with
                | colon :: r2 =>
                    if Ascii.eqb colon ":"%char then
                      match read_value fuel' r2 with
                      | Some (v, r3) =>
                          let acc' := set_field (string_of_list_ascii k) v acc in
                          match skip_ws r3 with
                          | d :: r4 =>
                              if Ascii.eqb d ","%char then read_members fuel' r4 acc'
                              else if Ascii.eqb d "}"%char then Some (VObj acc', r4)
                              else None
                          | [] => None
                          end
                      | None => None
                      end
                    else None
                | [] => None
                end
            | None => None
            end
          else None
      | [] => None
      end
  end.

Definition parse (text : string) : Result Value :=
  let s := list_ascii_of_string text in
  match read_value (S (List.length s)) s with
  | Some (v, rest) =>
      match skip_ws rest with
      | [] => Return v
      | _ :: _ => Throw (SyntaxError "Unexpected non-whitespace character after JSON")
      end
  | None => Throw (SyntaxError "Unexpected token in JSON")
  end.

(** *** Values to JSON text *)

Definition escape (c : ascii) : list ascii :=
  let n := nat_of_ascii c in
  let bs := "\"%char in
  if Ascii.eqb c dquote then [bs; c]
  else if Ascii.eqb c bs then [bs; bs]
  else if Nat.eqb n 10 then [bs; "n"%char]
  else if Nat.eqb n 13 then [bs; "r"%char]
  else if Nat.eqb n 9 then [bs; "t"%char]
  else if Nat.eqb n 8 then [bs; "b"%char]
  else if Nat.eqb n 12 then [bs; "f"%char]
  else if Nat.ltb n 32
       then [bs; "u"%char; "0"%char; "0"%char;
             Hex.digit (Z.of_nat n / 16); Hex.digit (Z.of_nat n mod 16)]
  else [c].

Definition quote (s : string) : string :=
  String dquote (string_of_list_ascii (List.flat_map escape (list_ascii_of_string s)))
    ++ String dquote "".

Fixpoint join (sep : string) (parts : list string) : string :=
  match parts with
  | [] => ""
  | [x] => x
  | x :: rest => x ++ sep ++ join sep rest
  end.

(** Members that are [undefined] are left out; in an array they, like the
    numbers that are not finite, are written [null]. *)
Fixpoint stringify (v : Value) : string :=
  match v with
  | VUndefined | VNull => "null"
  | VBool b => if b then "true" else "false"
  | VNum (Int z) => JS.decimal z
  | VNum _ => "null"
  | VStr s => quote s
  | VArr items =>
      "[" ++ join "," ((fix each (l : list Value) : list string :=
                          match l with
                          | [] => []
                          | x :: rest => stringify x :: each rest
                          end) items) ++ "]"
  | VObj fields =>
      "{" ++ join "," ((fix each (l : list (string * Value)) : list string :=
                          match l with
                          | [] => []
                          | (k, x) :: rest =>
                              match x with
                              | VUndefined => each rest
                              | _ => (quote k ++ ":" ++ stringify x) :: each rest
                              end
                          end) fields) ++ "}"
  end.

(** *** Coercions of strings and objects *)

(** Decimal integer literals with an optional sign; the other numeric
    literals of JavaScript are outside the fragment. *)
Definition string_to_number (s : string) : number :=
  match skip_ws (list_ascii_of_string s) with
  | [] => Int 0
  | c :: rest =>
      let signed (neg : bool) (digits : list ascii) :=
        match read_integer digits with
        | Some (n, r) => match skip_ws r with
                         | [] => Int (if neg then - n else n)
                         | _ :: _ => NaN
                         end
        | None => NaN
        end in
      if Ascii.eqb c "-"%char then signed true rest
      else if Ascii.eqb c "+"%char then signed false rest
      else signed false (c :: rest)
  end.

Fixpoint object_to_string (v : Value) : string :=
  match v with
  | VArr items =>
      join "," ((fix each (l : list Value) : list string :=
                   match l with
                   | [] => []
                   | x :: rest =>
                       match x with
                       | VUndefined | VNull => ""
                       | VBool b => if b then "true" else "false"
                       | VNum (Int z) => JS.decimal z
                       | VNum NaN => "NaN"
                       | VNum Infinity => "Infinity"
                       | VNum NegInfinity => "-Infinity"
                       | VStr s => s
                       | _ => object_to_string x
                       end :: each rest
                   end) items)
  | _ => "[object Object]"
  end.

Definition buffer_from_object (v : Value) : Result (list Z) :=
  match v with
  | VArr items =>
      Return (List.map (fun x => match x with
                                 | VNum (Int z) => z mod 256
                                 | VBool true => 1
                                 | _ => 0
                                 end) items)
  | _ => Throw (TypeError "The first argument must be of type string or an instance of Buffer, ArrayBuffer, or Array or an Array-like Object.")
  end.

Definition platform : Platform := {|
  JSON_parse := parse;
  JSON_stringify := stringify;
  base64_decode := b64_decode;
  base64_encode := b64_encode;
  StringToNumber := string_to_number;
  object_ToNumber := fun v => string_to_number (object_to_string v);
  object_ToString := object_to_string;
  unsafe_integer_ToString := JS.decimal;
  Buffer_from_object := buffer_from_object
|}.

End Node.

Module Script.

Definition answer (answers : list (Result Response)) (call : FetchCall)
    : Result Response * list (Result Response) :=
  match answers with
  | [] => (Throw (TypeError "fetch failed"), [])
  | r :: rest => (r, rest)
  end.

Definition network : Network := {|
  Net := list (Result Response);
  respond := answer
|}.

End Script.

#[export] Existing Instance Node.platform.
#[export] Existing Instance Script.network.

(** ** Fixtures of test/middleware.test.ts and test/client.test.ts *)

Module Fixtures.

Definition PREIMAGE_HEX : string :=
  "aabbccdd00112233aabbccdd00112233aabbccdd00112233aabbccdd00112233".

Definition PAYMENT_HASH : string :=
  Eval vm_compute in Hex.encode (Sha256.digest (Hex.decode PREIMAGE_HEX)).

Definition PAYMENT_HASH_B64 : string :=
  Eval vm_compute in Node.b64_encode (Hex.decode PAYMENT_HASH).

Definition PREIMAGE_B64 : string :=
  Eval vm_compute in Node.b64_encode (Hex.decode PREIMAGE_HEX).

Definition lnd_node : LndConfig :=
  {| restHost := "https://localhost:8082"; macaroon := "deadbeef"; skipTlsVerify := None |}.

Definition makeMacaroon (hash : string) : string :=
  Node.b64_encode
    (JS.octets
       (Node.stringify
          (VObj [ ("version", VNum (Int 1)); ("paymentHash", VStr hash);
                  ("service", VStr "/api/test"); ("issuedAt", VNum (Int 1700000000000)) ]))).

Definition MACAROON_B64 : string := Eval vm_compute in makeMacaroon PAYMENT_HASH.

Definition mockReq (auth : option string) : Request :=
  {| authorization := auth; req_method := "GET"; path := "/api/test";
     req_body := VUndefined; l402_proof := None |}.

Definition mockRes : ServerResponse :=
  {| statusCode := 0; res_headers := ∅; res_body := None |}.

Definition no_options : RequestInit := {| method := None; headers := ∅; body := None |}.

(** A process whose network answers from [answers]. *)
Definition start (answers : list (Result Response)) : World :=
  {| tls_env := None; net := answers; calls := []; console_error := [];
     clock := 1700000000000; tokenCache := ∅; next_calls := [] |}.

Definition answer_json (code : Z) (payload : Value) : Result Response :=
  Return {| status := code; statusText := EmptyString;
            ok := (200 <=? code) && (code <=? 299); json := Return payload |}.

Definition invoice_created : Result Response :=
  answer_json 200
    (VObj [ ("r_hash", VStr PAYMENT_HASH_B64);
            ("payment_request", VStr "lnbc100n1fake_invoice");
            ("add_index", VStr "1") ]).

Definition make402Response (amount : Z) : Result Response :=
  answer_json 402
    (VObj [ ("code", VNum (Int 402)); ("message", VStr "Payment Required");
            ("invoice", VStr "lnbc100n1fake_invoice");
            ("macaroon", VStr MACAROON_B64);
            ("price", VNum (Int amount));
            ("description", VStr "L402 access") ]).

Definition makeLndPaymentResponse : Result Response :=
  answer_json 200
    (VObj [ ("payment_error", VStr EmptyString);
            ("payment_preimage", VStr PREIMAGE_B64) ]).

End Fixtures.

(** ** The scenarios of the test suites *)

Module Scenarios.
Import Fixtures.

Definition client_1000 : L402ClientConfig :=
  {| client_node := lnd_node; maxAutoPaySats := Some (Int 1000) |}.

Definition client_default : L402ClientConfig :=
  {| client_node := lnd_node; maxAutoPaySats := None |}.

Definition price_100 : L402MiddlewareConfig :=
  {| node := lnd_node; price := Int 100; description := None; priceFn := None |}.

Definition price_0 : L402MiddlewareConfig :=
  {| node := lnd_node; price := Int 0; description := None; priceFn := None |}.

Definition skip_tls_config : L402MiddlewareConfig :=
  {| node := {| restHost := "https://localhost:8082"; macaroon := "deadbeef";
                skipTlsVerify := Some true |};
     price := Int 100; description := None; priceFn := None |}.

Definition expensive_url : string := "https://api.example.com/expensive".
Definition joke_url : string := "https://api.example.com/joke".
Definition test_url : string := "https://api.example.com/test".

(** The credential of "calls next() with valid preimage", which is also the
    one the client builds from [make402Response] and
    [makeLndPaymentResponse]. *)
Definition valid_credential : string := "L402 " ++ MACAROON_B64 ++ ":" ++ PREIMAGE_HEX.

(** The credential of "returns 401 for wrong preimage". *)
Definition wrong_preimage : string :=
  "L402 " ++ MACAROON_B64 ++ ":" ++
  "0000000000000000000000000000000000000000000000000000000000000000".

(** What [MACAROON_B64] decodes to. *)
Definition macaroon_data : Value :=
  VObj [ ("version", VNum (Int 1)); ("paymentHash", VStr PAYMENT_HASH);
         ("service", VStr "/api/test"); ("issuedAt", VNum (Int 1700000000000)) ].

(** "caches tokens and reuses them on subsequent requests": the answers,
    the first fetch with the world it leaves, and the call of the second. *)
Definition caching_script : list (Result Response) :=
  [ make402Response 100; makeLndPaymentResponse;
    answer_json 200 (VObj [("first", VBool true)]);
    answer_json 200 (VObj [("second", VBool true)]) ].

Definition first_fetch : Result L402FetchResult * World :=
  Eval vm_compute in
    l402Fetch client_default joke_url no_options (start caching_script).

Definition second_call : Result Response * World :=
  Eval vm_compute in
    fetch joke_url
      (with_headers no_options
         (<["Authorization" := valid_credential]> (headers no_options)))
      (snd first_fetch).

(** "throws when LND returns a payment error" *)
Definition insufficient_balance : Result Response :=
  answer_json 200
    (VObj [ ("payment_error", VStr "insufficient_balance");
            ("payment_preimage", VStr EmptyString);
            ("payment_route", VNull) ]).

Definition failed_payment : Result L402FetchResult * World :=
  Eval vm_compute in
    l402Fetch client_default test_url no_options
      (start [make402Response 100; insufficient_balance]).

(** A payment that goes through, and a server that then refuses the
    credential. *)
Definition refused : Result Response :=
  answer_json 401 (VObj [("error", VStr "Invalid L402 token")]).

Definition paid_and_refused : Result L402FetchResult * World :=
  Eval vm_compute in
    l402Fetch client_default joke_url no_options
      (start [make402Response 100; makeLndPaymentResponse; refused]).

End Scenarios.

(** ** More scenarios: the remaining tests, the README and the examples *)

Module Cases.
Import Fixtures Scenarios.

(** "is case-insensitive for the L402 prefix" *)
Definition lower_case_credential : string := "l402 " ++ MACAROON_B64 ++ ":" ++ PREIMAGE_HEX.

(** The preimage of the tests in upper case, and with text after it. *)
Definition PREIMAGE_UPPER : string :=
  "AABBCCDD00112233AABBCCDD00112233AABBCCDD00112233AABBCCDD00112233".

Definition preimage_with_tail : string := PREIMAGE_HEX ++ "zz".

(** "returns 401 when token has no colon separator" *)
Definition no_colon : string := "L402 sometokenwithoutcolon".

(** "returns 500 when LND returns an error status" *)
Definition service_unavailable : Result Response :=
  Return {| status := 503; statusText := "Service Unavailable"; ok := false;
            json := Throw (TypeError "res.json is not a function") |}.


(** A node that answers with a success and no [r_hash]. *)
Definition invoice_without_hash : Result Response :=
  answer_json 200 (VObj [("payment_request", VStr "lnbc100n1fake_invoice")]).

(** "returns data directly without paying" *)
Definition free_url : string := "https://api.example.com/free".

Definition hello_world : Result Response :=
  answer_json 200 (VObj [("hello", VStr "world")]).

(** A challenge that states no price, and a client that would pay nothing. *)
Definition unpriced_challenge : Result Response :=
  answer_json 402
    (VObj [ ("code", VNum (Int 402)); ("message", VStr "Payment Required");
            ("invoice", VStr "lnbc100n1fake_invoice");
            ("macaroon", VStr MACAROON_B64) ]).

Definition client_0 : L402ClientConfig :=
  {| client_node := lnd_node; maxAutoPaySats := Some (Int 0) |}.

Definition unpriced_run : Result L402FetchResult * World :=
  Eval vm_compute in
    l402Fetch client_0 test_url no_options
      (start [unpriced_challenge; makeLndPaymentResponse; hello_world]).

(** The routes of examples/server.ts: a credential bought at [/api/joke],
    presented at [/api/wisdom]. *)
Definition joke_macaroon : string :=
  Eval vm_compute in
    Node.b64_encode
      (JS.octets
         (Node.stringify
            (VObj [ ("version", VNum (Int 1)); ("paymentHash", VStr PAYMENT_HASH);
                    ("service", VStr "/api/joke");
                    ("issuedAt", VNum (Int 1700000000000)) ]))).

Definition wisdom_config : L402MiddlewareConfig :=
  {| node := lnd_node; price := Int 50;
     description := Some "A piece of wisdom"; priceFn := None |}.

Definition wisdom_request : Request :=
  {| authorization := Some ("L402 " ++ joke_macaroon ++ ":" ++ PREIMAGE_HEX);
     req_method := "GET"; path := "/api/wisdom";
     req_body := VUndefined; l402_proof := None |}.

(** The client of "tracks cache size correctly", and its first fetch. *)
Definition counting_script : list (Result Response) :=
  [make402Response 100; makeLndPaymentResponse; hello_world].

Definition fresh_client : L402Client :=
  {| client_fetch := l402Fetch client_default;
     clearCache := cache_clear;
     cacheSize := fun w => (Return (size (tokenCache w)), w) |}.

Definition counted_fetch : Result L402FetchResult * World :=
  Eval vm_compute in l402Fetch client_default test_url no_options (start counting_script).

End Cases.

(** ** Hexadecimal text and the commitment *)

(** A check of the sixteen digits decides a property of all of them. *)
Lemma sixteen (P : Z -> bool) :
  List.forallb P (List.map Z.of_nat (List.seq 0 16)) = true ->
  forall n, 0 <= n < 16 -> P n = true.
Proof.
  intros Hall n Hn. rewrite List.forallb_forall in Hall. apply Hall.
  apply in_map_iff. exists (Z.to_nat n). split; [lia |]. apply in_seq. lia.
Qed.

Lemma unhex_digit (n : Z) : 0 <= n < 16 -> Hex.unhex (Hex.digit n) = Some n.
Proof.
  intros Hn.
  pose proof (sixteen (fun d => match Hex.unhex (Hex.digit d) with
                                | Some m => m =? d
                                | None => false
                                end) eq_refl n Hn) as Hcheck.
  cbv beta in Hcheck. destruct (Hex.unhex (Hex.digit n)); [| discriminate].
  apply Z.eqb_eq in Hcheck. congruence.
Qed.

Lemma lower_digit (n : Z) : 0 <= n < 16 -> JS.lower (Hex.digit n) = Hex.digit n.
Proof.
  intros Hn.
  pose proof (sixteen (fun d => Ascii.eqb (JS.lower (Hex.digit d)) (Hex.digit d))
                eq_refl n Hn) as Hcheck.
  cbv beta in Hcheck. apply Ascii.eqb_eq in Hcheck. exact Hcheck.
Qed.

Lemma nibbles (b : Z) : octet b -> 0 <= b / 16 < 16 /\ 0 <= b mod 16 < 16 /\ 16 * (b / 16) + b mod 16 = b.
Proof.
  unfold octet. intros Hb. repeat split.
  - apply Z.div_pos; lia.
  - apply Z.div_lt_upper_bound; lia.
  - apply Z.mod_pos_bound; lia.
  - apply Z.mod_pos_bound; lia.
  - symmetry. apply Z.div_mod. lia.
Qed.

(** Reading back what [Hex.encode] wrote. *)
Lemma decode_encode (bs : list Z) : Forall octet bs -> Hex.decode (Hex.encode bs) = bs.
Proof.
  induction 1 as [| b bs Hb _ IH]; [reflexivity |].
  destruct (nibbles b Hb) as (Hhi & Hlo & Hsum).
  cbn [Hex.encode Hex.decode].
  rewrite (unhex_digit _ Hhi), (unhex_digit _ Hlo), IH, Hsum. reflexivity.
Qed.

Lemma encode_lower_case (bs : list Z) :
  Forall octet bs -> JS.toLowerCase (Hex.encode bs) = Hex.encode bs.
Proof.
  induction 1 as [| b bs Hb _ IH]; [reflexivity |].
  destruct (nibbles b Hb) as (Hhi & Hlo & _).
  cbn [Hex.encode JS.toLowerCase].
  rewrite (lower_digit _ Hhi), (lower_digit _ Hlo), IH. reflexivity.
Qed.

Lemma be_bytes_octets (width : nat) (x : Z) : Forall octet (Sha256.be_bytes width x).
Proof.
  unfold Sha256.be_bytes. apply Lists.List.Forall_forall. intros b Hin.
  apply in_map_iff in Hin as (i & <- & _).
  change 255 with (Z.ones 8). rewrite Z.land_ones by lia.
  unfold octet. change 256 with (2 ^ 8). apply Z.mod_pos_bound. lia.
Qed.

Lemma digest_octets (msg : list Z) : Forall octet (Sha256.digest msg).
Proof.
  unfold Sha256.digest. apply Lists.List.Forall_forall. intros b Hin.
  apply in_flat_map in Hin as (word & _ & Hb).
  pose proof (be_bytes_octets 4 word) as Hall.
  rewrite Lists.List.Forall_forall in Hall. auto.
Qed.

Lemma commit_digest (s1 s2 : string) :
  commit s1 = commit s2 <-> Sha256.digest (Hex.decode s1) = Sha256.digest (Hex.decode s2).
Proof.
  unfold commit. split; [| congruence].
  intros Heq. apply (f_equal Hex.decode) in Heq.
  rewrite !decode_encode in Heq by apply digest_octets. exact Heq.
Qed.

Lemma verifyPreimage_string (s H : string) :
  verifyPreimage s (VStr H) = true <-> H = commit s.
Proof.
  unfold verifyPreimage, JS.strict_equal_string, commit.
  rewrite String.eqb_eq. split; congruence.
Qed.

(** C1, as the specification states it, fails: two secrets that differ in
    the case of a digit decode to the same octets. *)
Lemma C1_distinct_secrets_verify :
  "aa" <> "AA" /\ verifyPreimage "aa" (VStr (commit "AA")) = true.
Proof. split; [discriminate | vm_compute; reflexivity]. Qed.

(** C1 (amended): [verify(s, commit(s))] is true for every secret, and
    [verify(s1, commit(s2))] is false exactly when the SHA-256 digests of the
    octets the two secrets decode to differ. *)
Theorem C1_commitment_soundness (s1 s2 : string) :
  verifyPreimage s1 (VStr (commit s1)) = true /\
  (verifyPreimage s1 (VStr (commit s2)) = false <->
   Sha256.digest (Hex.decode s1) <> Sha256.digest (Hex.decode s2)).
Proof.
  split.
  - apply verifyPreimage_string. reflexivity.
  - rewrite <- commit_digest, <- not_true_iff_false, verifyPreimage_string.
    split; intros Hne Heq; apply Hne; congruence.
Qed.

(** C4, as the specification states it, fails: the upper-case rendering of
    the commitment of the empty secret equals it up to case and is refused. *)
Lemma C4_upper_case_hash_refused :
  JS.toLowerCase "E3B0C44298FC1C149AFBF4C8996FB92427AE41E4649B934CA495991B7852B855"
    = JS.toLowerCase (commit EmptyString) /\
  verifyPreimage EmptyString
    (VStr "E3B0C44298FC1C149AFBF4C8996FB92427AE41E4649B934CA495991B7852B855") = false.
Proof. split; vm_compute; reflexivity. Qed.

(** C4 (amended): [verify(s, H)] is true exactly when [H] is, character for
    character, the hex rendering of [commit(s)], which is in lower case; no
    case is normalised. *)
Theorem C4_verify_exact_match (s H : string) :
  (verifyPreimage s (VStr H) = true <-> H = commit s) /\
  JS.toLowerCase (commit s) = commit s.
Proof.
  split.
  - apply verifyPreimage_string.
  - apply encode_lower_case, digest_octets.
Qed.

(** ** Running the monad: equations and frame facts *)

Section Effects.
Context `{Platform} `{Network}.

Lemma bind_Return {A B} (m : M A) (k : A -> M B) (w w' : World) (a : A) :
  m w = (Return a, w') -> bind m k w = k a w'.
Proof. unfold bind. intros ->. reflexivity. Qed.

Lemma bind_Throw {A B} (m : M A) (k : A -> M B) (w w' : World) (e : exn) :
  m w = (Throw e, w') -> bind m k w = (Throw e, w').
Proof. unfold bind. intros ->. reflexivity. Qed.

Lemma bind_lift {A B} (r : Result A) (k : A -> M B) (w : World) :
  bind (lift r) k w = match r with Return a => k a w | Throw e => (Throw e, w) end.
Proof. unfold bind, lift. destruct r; reflexivity. Qed.

Lemma fetch_frame (url : string) (init : RequestInit) (w w' : World) (r : Result Response) :
  fetch url init w = (r, w') ->
  calls w' = (calls w ++ [call_of w url init])%list /\
  tokenCache w' = tokenCache w /\ tls_env w' = tls_env w /\
  next_calls w' = next_calls w /\ console_error w' = console_error w /\
  clock w' = clock w /\
  (r, net w') = respond (net w) (call_of w url init).
Proof.
  unfold fetch. fold (call_of w url init).
  destruct (respond (net w) (call_of w url init)) as [r0 n].
  intros [= <- <-]. cbn. repeat split; reflexivity.
Qed.

(** [lndFetch] makes one call and leaves the environment variable as it
    found it, whether the call resolves or rejects. *)
Lemma lndFetch_frame (url : string) (init : RequestInit) (skip : option bool)
    (w w' : World) (r : Result Response) :
  lndFetch url init skip w = (r, w') ->
  calls w' = (calls w ++ [ {| call_url := url; call_init := init;
                              call_tls := if enabled skip then Some "0" else tls_env w |} ])%list /\
  tokenCache w' = tokenCache w /\ tls_env w' = tls_env w /\
  next_calls w' = next_calls w.
Proof.
  unfold lndFetch. destruct (enabled skip); cbn [negb].
  - unfold bind, get_tls_env, set_tls_env, try_finally, fetch. cbn.
    destruct (respond _ _) as [r0 n]. cbn.
    destruct (tls_env w) as [v |] eqn:Henv; cbn; intros [= <- <-]; cbn; auto.
  - intros Hfetch. apply fetch_frame in Hfetch. unfold call_of in Hfetch. tauto.
Qed.

Lemma payInvoice_frame (host mac : string) (invoice : Value) (skip : option bool)
    (w w' : World) (r : Result Value) :
  payInvoice host mac invoice skip w = (r, w') ->
  tokenCache w' = tokenCache w /\ tls_env w' = tls_env w /\
  next_calls w' = next_calls w /\
  exists call, calls w' = (calls w ++ [call])%list /\
               call_url call = host ++ "/v1/channels/transactions".
Proof.
  unfold payInvoice, bind.
  destruct (lndFetch _ _ skip w) as [[res | e] w1] eqn:Hlnd;
    apply lndFetch_frame in Hlnd as (Hcalls & Hcache & Henv & Hnext).
  - destruct (ok res); cbn [negb]; unfold throw, lift; intros [= <- <-].
    all: split; [assumption |]; split; [assumption |]; split; [assumption |].
    all: eexists; split; [exact Hcalls | reflexivity].
  - intros [= <- <-].
    split; [assumption |]; split; [assumption |]; split; [assumption |].
    eexists; split; [exact Hcalls | reflexivity].
Qed.

End Effects.

(** ** The client *)

Section ClientProperties.
Context `{Platform} `{Network}.

(** C5: a challenge whose price exceeds the ceiling makes [l402Fetch] throw
    an error whose message spells out the price and the ceiling; the request
    that drew the challenge is the only call made, so nothing is paid, and
    the cache is as before. *)
Theorem C5_price_above_ceiling_is_not_paid
    (config : L402ClientConfig) (url : string) (options : RequestInit)
    (w w1 : World) (res : Response) (challenge price : Value) :
  fetch url (with_headers options (initial_headers (tokenCache w) url options)) w
    = (Return res, w1) ->
  status res = 402 ->
  json res = Return challenge ->
  JS.get challenge "price" = Return price ->
  JS.gt (JS.ToNumber price) (ceiling config) = true ->
  l402Fetch config url options w =
    (Throw (Error ("L402 price (" ++ JS.ToString price ++
                   " sats) exceeds maxAutoPaySats (" ++
                   JS.Number_toString (ceiling config) ++
                   "). Increase the limit or pay manually.")), w1) /\
  calls w1 = (calls w ++
    [call_of w url (with_headers options (initial_headers (tokenCache w) url options))])%list /\
  tokenCache w1 = tokenCache w.
Proof.
  intros Hfetch Hstatus Hjson Hprice Hgt.
  pose proof (fetch_frame _ _ _ _ _ Hfetch) as (Hcalls & Hcache & _).
  split; [| split; assumption].
  unfold l402Fetch. fold (ceiling config).
  unfold bind at 1. unfold cache_get. cbn beta iota.
  fold (initial_headers (tokenCache w) url options).
  rewrite (bind_Return _ _ _ _ _ Hfetch), Hstatus. cbn [Z.eqb Pos.eqb negb].
  rewrite bind_lift, Hjson, bind_lift, Hprice, Hgt. reflexivity.
Qed.

Lemma payInvoice_failed (config : L402ClientConfig) (invoice : Value) (w w' : World)
    (out : Result Response) :
  lndFetch (settlement_url config) (settlement_init config invoice)
    (skipTlsVerify (client_node config)) w = (out, w') ->
  payment_failed out ->
  match payInvoice (restHost (client_node config)) (macaroon (client_node config))
          invoice (skipTlsVerify (client_node config)) w with
  | (Throw _, w'') => w'' = w'
  | (Return payment, w'') =>
      w'' = w' /\ exists reason, JS.get payment "payment_error" = Return reason /\
                                 JS.truthy reason = true
  end.
Proof.
  intros Hcall Hfailed. unfold payInvoice.
  fold (settlement_url config). fold (settlement_init config invoice).
  destruct out as [r | e].
  - rewrite (bind_Return _ _ _ _ _ Hcall).
    destruct Hfailed as [Hok | (payment & reason & Hjson & Hreason & Htruthy)].
    + rewrite Hok. reflexivity.
    + destruct (ok r); cbn [negb]; [| reflexivity].
      unfold lift. rewrite Hjson. eauto.
  - rewrite (bind_Throw _ _ _ _ _ Hcall). reflexivity.
Qed.

(** What a run that paid leaves behind: the credential it built is in the
    cache under the target. *)
Lemma paid_run_caches (config : L402ClientConfig) (url : string) (options : RequestInit)
    (w w' : World) (r : L402FetchResult) :
  l402Fetch config url options w = (Return r, w') ->
  result_paid r = true ->
  exists mac pre,
    result_preimage r = Some pre /\
    tokenCache w' !! url = Some ("L402 " ++ mac ++ ":" ++ pre).
Proof.
  unfold l402Fetch. fold (ceiling config).
  unfold bind at 1. unfold cache_get. cbn beta iota.
  fold (initial_headers (tokenCache w) url options).
  unfold bind at 1.
  destruct (fetch url _ w) as [[res | e] w1] eqn:Hfirst; [| discriminate].
  destruct (negb (status res =? 402)).
  { rewrite bind_lift. destruct (json res); [| discriminate].
    unfold ret. intros [= <- _]. discriminate. }
  rewrite bind_lift. destruct (json res) as [challenge |]; [| discriminate].
  rewrite bind_lift. destruct (JS.get challenge "price") as [price |]; [| discriminate].
  destruct (JS.gt _ _); [discriminate |].
  rewrite bind_lift. destruct (JS.get challenge "invoice") as [invoice |]; [| discriminate].
  unfold bind at 1.
  destruct (payInvoice _ _ invoice _ w1) as [[payment | e] w2]; [| discriminate].
  rewrite bind_lift.
  destruct (JS.get payment "payment_error") as [reason |]; [| discriminate].
  destruct (JS.truthy reason); [discriminate |].
  rewrite bind_lift.
  destruct (JS.get payment "payment_preimage") as [encoded |]; [| discriminate].
  rewrite bind_lift.
  destruct (JS.Buffer_from_base64 encoded) as [octets |]; [| discriminate].
  rewrite bind_lift.
  destruct (JS.get challenge "macaroon") as [mac |]; [| discriminate].
  unfold bind at 1. unfold cache_set at 1. cbn beta iota.
  unfold bind at 1. clear Hfirst.
  match goal with
  | |- context [fetch ?u ?i ?w0] =>
      destruct (fetch u i w0) as [[authed | e] w3] eqn:Hretry; [| discriminate]
  end.
  apply fetch_frame in Hretry as (_ & Hcache & _).
  rewrite bind_lift. destruct (json authed) as [d |]; [| discriminate].
  unfold ret. intros [= <- <-] _.
  exists (JS.ToString mac), (Hex.encode octets). split; [reflexivity |].
  rewrite Hcache. cbn. apply lookup_insert_eq.
Qed.

(** A fetch that finds a credential in the cache and is not answered with a
    402 makes that one call and nothing else. *)
Lemma cached_fetch (config : L402ClientConfig) (url token : string)
    (options : RequestInit) (w w' : World) (out : Result Response) :
  tokenCache w !! url = Some token ->
  JS.truthy (VStr token) = true ->
  fetch url (with_headers options (<["Authorization" := token]> (headers options))) w
    = (out, w') ->
  (forall res, out = Return res -> status res <> 402) ->
  l402Fetch config url options w =
    (match out with
     | Throw e => Throw e
     | Return res =>
         match json res with
         | Return d => Return {| data := d; result_paid := false;
                                 result_price := VUndefined; result_preimage := None |}
         | Throw e => Throw e
         end
     end, w').
Proof.
  intros Hcached Htruthy Hfetch Hstatus.
  unfold l402Fetch. unfold bind at 1. unfold cache_get. cbn beta iota.
  rewrite Hcached, Htruthy.
  destruct out as [res | e].
  - rewrite (bind_Return _ _ _ _ _ Hfetch).
    specialize (Hstatus res eq_refl). apply Z.eqb_neq in Hstatus. rewrite Hstatus.
    cbn [negb]. rewrite bind_lift. destruct (json res); reflexivity.
  - rewrite (bind_Throw _ _ _ _ _ Hfetch). reflexivity.
Qed.

(** C8: after a fetch of [T] that paid, the cache holds the credential under
    [T]; a second fetch of [T] that is not answered with a 402 makes exactly
    one call.  That call goes to [T] with the caller's method and body, and
    its headers are the caller's with [Authorization] set to the cached
    credential, as it is stored.  Nothing is paid and the cache is left
    alone. *)
Theorem C8_second_fetch_reuses_credential
    (config : L402ClientConfig) (T : string) (options1 options2 : RequestInit)
    (w0 w1 : World) (r1 : L402FetchResult) :
  l402Fetch config T options1 w0 = (Return r1, w1) ->
  result_paid r1 = true ->
  exists token,
    tokenCache w1 !! T = Some token /\
    forall (out : Result Response) (w2 : World),
      fetch T {| method := method options2;
                 headers := <["Authorization" := token]> (headers options2);
                 body := body options2 |} w1
        = (out, w2) ->
      (forall res, out = Return res -> status res <> 402) ->
      exists r2 call,
        l402Fetch config T options2 w1 = (r2, w2) /\
        (forall result, r2 = Return result -> result_paid result = false) /\
        calls w2 = (calls w1 ++ [call])%list /\
        call = {| call_url := T;
                  call_init := {| method := method options2;
                                  headers := <["Authorization" := token]> (headers options2);
                                  body := body options2 |};
                  call_tls := tls_env w1 |} /\
        headers (call_init call) !! "Authorization" = Some token /\
        tokenCache w2 = tokenCache w1.
Proof.
  intros Hfirst Hpaid.
  destruct (paid_run_caches _ _ _ _ _ _ Hfirst Hpaid) as (mac & pre & _ & Hcached).
  eexists. split; [exact Hcached |].
  intros out w2 Hfetch Hstatus.
  eexists _, _. split; [| split; [| split; [| split; [reflexivity | split]]]].
  - apply (cached_fetch config T _ options2 w1 w2 out Hcached); [reflexivity | | assumption].
    exact Hfetch.
  - intros result. destruct out as [res |]; [| discriminate].
    destruct (json res); [| discriminate]. intros [= <-]. reflexivity.
  - apply fetch_frame in Hfetch. apply Hfetch.
  - cbn. apply lookup_insert_eq.
  - apply fetch_frame in Hfetch. apply Hfetch.
Qed.

(** The client up to the payment: a 402 answer whose price is within the
    ceiling leads to [payInvoice] on the challenge's invoice. *)
Lemma l402Fetch_pays (config : L402ClientConfig) (url : string) (options : RequestInit)
    (w w1 : World) (res : Response) (challenge price invoice : Value) :
  fetch url (with_headers options (initial_headers (tokenCache w) url options)) w
    = (Return res, w1) ->
  status res = 402 ->
  json res = Return challenge ->
  JS.get challenge "price" = Return price ->
  JS.gt (JS.ToNumber price) (ceiling config) = false ->
  JS.get challenge "invoice" = Return invoice ->
  l402Fetch config url options w =
    bind (payInvoice (restHost (client_node config)) (macaroon (client_node config))
            invoice (skipTlsVerify (client_node config)))
      (fun payment =>
         do payment_error <- lift (JS.get payment "payment_error");
         if JS.truthy payment_error then
           throw (Error ("Lightning payment failed: " ++ JS.ToString payment_error))
         else
           do payment_preimage <- lift (JS.get payment "payment_preimage");
           do preimage_octets <- lift (JS.Buffer_from_base64 payment_preimage);
           do challenge_macaroon <- lift (JS.get challenge "macaroon");
           let l402Token := "L402 " ++ JS.ToString challenge_macaroon ++ ":" ++
                            Hex.encode preimage_octets in
           run cache_set url l402Token;
           do authedRes <- fetch url
                             (with_headers options
                                (<["Authorization" := l402Token]>
                                   (initial_headers (tokenCache w) url options)));
           do data <- lift (json authedRes);
           ret {| data := data; result_paid := true; result_price := price;
                  result_preimage := Some (Hex.encode preimage_octets) |})
      w1.
Proof.
  intros Hfetch Hstatus Hjson Hprice Hgt Hinvoice.
  unfold l402Fetch. fold (ceiling config).
  unfold bind at 1. unfold cache_get. cbn beta iota.
  fold (initial_headers (tokenCache w) url options).
  rewrite (bind_Return _ _ _ _ _ Hfetch), Hstatus. cbn [Z.eqb Pos.eqb negb].
  rewrite bind_lift, Hjson, bind_lift, Hprice, Hgt, bind_lift, Hinvoice. reflexivity.
Qed.

(** The client half of C9. *)
Lemma failed_payment_keeps_cache (config : L402ClientConfig) (url : string)
    (options : RequestInit) (w w1 w2 : World) (res : Response)
    (challenge price invoice : Value) (out : Result Response) :
  fetch url (with_headers options (initial_headers (tokenCache w) url options)) w
    = (Return res, w1) ->
  status res = 402 ->
  json res = Return challenge ->
  JS.get challenge "price" = Return price ->
  JS.gt (JS.ToNumber price) (ceiling config) = false ->
  JS.get challenge "invoice" = Return invoice ->
  lndFetch (settlement_url config) (settlement_init config invoice)
    (skipTlsVerify (client_node config)) w1 = (out, w2) ->
  payment_failed out ->
  (exists e, l402Fetch config url options w = (Throw e, w2)) /\
  tokenCache w2 = tokenCache w.
Proof.
  intros Hfetch Hstatus Hjson Hprice Hgt Hinvoice Hcall Hfailed.
  split.
  - rewrite (l402Fetch_pays _ _ _ _ _ _ _ _ _ Hfetch Hstatus Hjson Hprice Hgt Hinvoice).
    pose proof (payInvoice_failed _ _ _ _ _ Hcall Hfailed) as Hpay.
    unfold bind at 1.
    destruct (payInvoice _ _ invoice _ w1) as [[payment | e] w2'].
    + destruct Hpay as (-> & reason & Hreason & Htruthy).
      rewrite bind_lift, Hreason, Htruthy. eexists. reflexivity.
    + subst w2'. eexists. reflexivity.
  - apply lndFetch_frame in Hcall as (_ & Hcache2 & _).
    apply fetch_frame in Hfetch as (_ & Hcache1 & _). congruence.
Qed.

(** C10: once the payment has gone through, whatever answers the repeated
    request is handed back as it is; its status is never read.  If its body
    parses, the result is [{data, paid: true, price, preimage}] with that
    body as [data], and the credential sent with it stays in the cache. *)
Theorem C10_retry_is_returned_unchecked
    (config : L402ClientConfig) (url : string) (options : RequestInit)
    (w w1 w2 w3 : World) (res authedRes : Response)
    (challenge price invoice payment reason encoded mac d : Value) (octets : list Z) :
  fetch url (with_headers options (initial_headers (tokenCache w) url options)) w
    = (Return res, w1) ->
  status res = 402 ->
  json res = Return challenge ->
  JS.get challenge "price" = Return price ->
  JS.gt (JS.ToNumber price) (ceiling config) = false ->
  JS.get challenge "invoice" = Return invoice ->
  JS.get challenge "macaroon" = Return mac ->
  payInvoice (restHost (client_node config)) (macaroon (client_node config))
    invoice (skipTlsVerify (client_node config)) w1 = (Return payment, w2) ->
  JS.get payment "payment_error" = Return reason ->
  JS.truthy reason = false ->
  JS.get payment "payment_preimage" = Return encoded ->
  JS.Buffer_from_base64 encoded = Return octets ->
  fetch url
    (with_headers options
       (<["Authorization" := credential mac octets]>
          (initial_headers (tokenCache w) url options)))
    (snd (cache_set url (credential mac octets) w2)) = (Return authedRes, w3) ->
  json authedRes = Return d ->
  l402Fetch config url options w =
    (Return {| data := d; result_paid := true; result_price := price;
               result_preimage := Some (Hex.encode octets) |}, w3) /\
  tokenCache w3 !! url = Some (credential mac octets).
Proof.
  intros Hfetch Hstatus Hjson Hprice Hgt Hinvoice Hmac Hpay Hreason Hfalsy
    Hencoded Hoctets Hretry Hbody.
  split.
  - rewrite (l402Fetch_pays _ _ _ _ _ _ _ _ _ Hfetch Hstatus Hjson Hprice Hgt Hinvoice).
    rewrite (bind_Return _ _ _ _ _ Hpay).
    rewrite bind_lift, Hreason, Hfalsy, bind_lift, Hencoded, bind_lift, Hoctets,
      bind_lift, Hmac.
    fold (credential mac octets).
    rewrite (bind_Return _ _ _ (snd (cache_set url (credential mac octets) w2)) tt)
      by reflexivity.
    rewrite (bind_Return _ _ _ _ _ Hretry), bind_lift, Hbody. reflexivity.
  - apply fetch_frame in Hretry as (_ & Hcache & _).
    rewrite Hcache. cbn. apply lookup_insert_eq.
Qed.

(** X1: the client path of the TLS opt-out.  Whatever happens, [l402Fetch]
    leaves [NODE_TLS_REJECT_UNAUTHORIZED] as it found it. *)
Theorem l402Fetch_restores_tls_env (config : L402ClientConfig) (url : string)
    (options : RequestInit) (w : World) :
  tls_env (snd (l402Fetch config url options w)) = tls_env w.
Proof.
  unfold l402Fetch. unfold bind at 1. unfold cache_get. cbn beta iota.
  unfold bind at 1.
  destruct (fetch url _ w) as [[res | e] w1] eqn:Hfirst;
    apply fetch_frame in Hfirst as (_ & _ & Henv1 & _); [| exact Henv1].
  destruct (negb (status res =? 402)).
  { rewrite bind_lift. destruct (json res); exact Henv1. }
  rewrite bind_lift. destruct (json res) as [challenge |]; [| exact Henv1].
  rewrite bind_lift. destruct (JS.get challenge "price") as [price |]; [| exact Henv1].
  destruct (JS.gt _ _); [exact Henv1 |].
  rewrite bind_lift. destruct (JS.get challenge "invoice") as [invoice |]; [| exact Henv1].
  unfold bind at 1.
  destruct (payInvoice _ _ invoice _ w1) as [[payment | e] w2] eqn:Hpay;
    apply payInvoice_frame in Hpay as (_ & Henv2 & _); [| cbn; congruence].
  assert (Henv : tls_env w2 = tls_env w) by congruence.
  rewrite bind_lift.
  destruct (JS.get payment "payment_error") as [reason |]; [| exact Henv].
  destruct (JS.truthy reason); [exact Henv |].
  rewrite bind_lift.
  destruct (JS.get payment "payment_preimage") as [encoded |]; [| exact Henv].
  rewrite bind_lift.
  destruct (JS.Buffer_from_base64 encoded) as [octets |]; [| exact Henv].
  rewrite bind_lift.
  destruct (JS.get challenge "macaroon") as [mac |]; [| exact Henv].
  unfold bind at 1. unfold cache_set at 1. cbn beta iota.
  unfold bind at 1.
  match goal with
  | |- context [fetch ?u ?i ?w0] =>
      destruct (fetch u i w0) as [[authed | e] w3] eqn:Hretry
  end;
    apply fetch_frame in Hretry as (_ & _ & Henv3 & _); cbn in Henv3;
    [| cbn; congruence].
  rewrite bind_lift. destruct (json authed); cbn; congruence.
Qed.

End ClientProperties.

(** ** The middleware *)

Section MiddlewareProperties.
Context `{Platform} `{Network}.

Lemma get_defined (v x : Value) (k k' : string) :
  JS.get v k = Return x -> exists y, JS.get v k' = Return y.
Proof. destruct v; cbn; intros Hget; try discriminate; eauto. Qed.

(** A macaroon that parses is a value with members, and its [paymentHash]
    is truthy. *)
Lemma parseServiceMacaroon_Some (macaroonBase64 : string) (data : Value) :
  parseServiceMacaroon macaroonBase64 = Some data ->
  exists paymentHash,
    JS.get data "paymentHash" = Return paymentHash /\ JS.truthy paymentHash = true.
Proof.
  unfold parseServiceMacaroon.
  destruct (JSON_parse _) as [parsed |]; [| discriminate].
  destruct (JS.get parsed "version") as [version |]; [| discriminate].
  destruct (JS.truthy version); [| discriminate].
  destruct (JS.get parsed "paymentHash") as [paymentHash |] eqn:Hget; [| discriminate].
  destruct (JS.truthy paymentHash) eqn:Htruthy; [| discriminate].
  intros [= <-]. eauto.
Qed.

Lemma createInvoice_frame (host mac : string) (amount : number) (memo : string)
    (w w' : World) (r : Result Value) :
  createInvoice host mac amount memo w = (r, w') ->
  next_calls w' = next_calls w /\ tokenCache w' = tokenCache w /\ tls_env w' = tls_env w.
Proof.
  unfold createInvoice, bind.
  destruct (fetch _ _ w) as [[res | e] w1] eqn:Hfetch;
    apply fetch_frame in Hfetch as (_ & Hcache & Henv & Hnext & _).
  - destruct (ok res); cbn [negb]; unfold throw, lift; intros [= <- <-]; auto.
  - intros [= <- <-]. auto.
Qed.

(** The [try] block hands nothing to [next]; when it ends normally the
    response is the 402 challenge, priced as computed. *)
Lemma challenge_attempt_outcome (config : L402MiddlewareConfig) (req : Request)
    (res : ServerResponse) (w w' : World) (r : Result (Request * ServerResponse)) :
  challenge_attempt config req res w = (r, w') ->
  next_calls w' = next_calls w /\
  forall req' res', r = Return (req', res') ->
    req' = req /\ statusCode res' = 402 /\
    exists finalPrice challenge,
      res_body res' = Some (VObj challenge) /\
      JS.lookup "price" challenge = VNum finalPrice /\
      (match priceFn config with
       | Some f => f req
       | None => Return (price config)
       end) = Return finalPrice.
Proof.
  unfold challenge_attempt.
  set (priced := match priceFn config with Some f => lift (f req) | None => ret _ end).
  assert (Hpriced : priced w = (match priceFn config with
                                | Some f => f req
                                | None => Return (price config)
                                end, w)).
  { subst priced. destruct (priceFn config); reflexivity. }
  unfold bind at 1. rewrite Hpriced. clear Hpriced priced.
  destruct (match priceFn config with Some f => f req | None => _ end)
    as [finalPrice | e]; [| intros [= <- <-]; split; [reflexivity | discriminate]].
  unfold bind at 1.
  destruct (createInvoice _ _ finalPrice _ w) as [[invoice | e] w1] eqn:Hinvoice;
    apply createInvoice_frame in Hinvoice as (Hnext & _);
    [| intros [= <- <-]; split; [assumption | discriminate]].
  rewrite bind_lift.
  destruct (JS.get invoice "r_hash") as [r_hash | e];
    [| intros [= <- <-]; split; [assumption | discriminate]].
  rewrite bind_lift.
  destruct (JS.Buffer_from_base64 r_hash) as [octets | e];
    [| intros [= <- <-]; split; [assumption | discriminate]].
  unfold bind at 1. unfold createServiceMacaroon, bind, Date_now, ret. cbn beta iota.
  unfold lift.
  destruct (JS.get invoice "payment_request") as [payment_request | e];
    [| intros [= <- <-]; split; [assumption | discriminate]].
  intros [= <- <-]. split; [assumption |].
  intros req' res' [= <- <-]. split; [reflexivity |]. split; [reflexivity |].
  eexists _, _. split; [reflexivity |]. split; reflexivity.
Qed.

(** Issuing a challenge always answers, with a 402 when the [try] block
    ends normally and with the 500 of the [catch] otherwise; [next] is not
    called and the request is not touched. *)
Lemma issue_challenge_outcome (config : L402MiddlewareConfig) (req : Request)
    (res : ServerResponse) (w : World) :
  exists res' w',
    issue_challenge config req res w = (Return (req, res'), w') /\
    next_calls w' = next_calls w /\
    match challenge_attempt config req res w with
    | (Return _, _) =>
        statusCode res' = 402 /\
        exists finalPrice challenge,
          res_body res' = Some (VObj challenge) /\
          JS.lookup "price" challenge = VNum finalPrice
    | (Throw _, _) =>
        statusCode res' = 500 /\
        res_body res' = Some (VObj [("error", VStr "Payment gateway error")])
    end.
Proof.
  unfold issue_challenge, try_catch.
  destruct (challenge_attempt config req res w) as [[[req' res'] | e] w1] eqn:Hattempt;
    apply challenge_attempt_outcome in Hattempt as (Hnext & Hreturn).
  - destruct (Hreturn req' res' eq_refl) as (-> & Hstatus & p & challenge & Hbody & Hprice & _).
    exists res', w1. split; [reflexivity |]. split; [assumption |]. eauto.
  - eexists _, _. split; [reflexivity |]. cbn. split; [assumption |]. split; reflexivity.
Qed.


Lemma scheme_truthy (authHeader : string) :
  JS.startsWith "l402 " (JS.toLowerCase authHeader) = true ->
  JS.truthy (VStr authHeader) = true.
Proof. destruct authHeader; [discriminate | reflexivity]. Qed.

(** C7: a request whose credential names the scheme, has its last colon
    after a non-empty macaroon, and whose macaroon parses to a token that the
    preimage verifies against, is handed to [next] exactly once.  The request
    that [next] sees is the one that came, with its [l402] member set to a
    proof whose [paymentHash] is the token's; nothing is sent on the
    response and no call is made. *)
Theorem C7_verified_credential_reaches_next
    (config : L402MiddlewareConfig) (req : Request) (res : ServerResponse) (w : World)
    (authHeader : string) (macaroonData hash : Value) :
  authorization req = Some authHeader ->
  JS.startsWith "l402 " (JS.toLowerCase authHeader) = true ->
  colon_of authHeader > 0 ->
  parseServiceMacaroon (macaroon_of authHeader) = Some macaroonData ->
  JS.get macaroonData "paymentHash" = Return hash ->
  verifyPreimage (preimage_of authHeader) hash = true ->
  exists proof req' w',
    l402_handler config req res w = (Return (req', res), w') /\
    next_calls w' = (next_calls w ++ [req'])%list /\
    calls w' = calls w /\
    req' = {| authorization := authorization req; req_method := req_method req;
              path := path req; req_body := req_body req;
              l402_proof := Some proof |} /\
    l402_proof req' = Some proof /\
    paid proof = true /\
    preimage proof = preimage_of authHeader /\
    paymentHash proof = hash.
Proof.
  intros Hauth Hscheme Hcolon Hparse Hhash Hverify.
  destruct (get_defined _ _ _ "service" Hhash) as [service Hservice].
  unfold l402_handler. rewrite Hauth, (scheme_truthy _ Hscheme), Hscheme. cbn [andb].
  fold (token_of authHeader). fold (colon_of authHeader).
  fold (macaroon_of authHeader). fold (preimage_of authHeader).
  apply Z.gtb_gt in Hcolon. rewrite Hcolon, Hparse.
  rewrite bind_lift, Hhash, Hverify, bind_lift, Hservice.
  exists {| paid := true; preimage := preimage_of authHeader;
            paymentHash := hash; service := service |}.
  eexists _, _. split; [reflexivity |].
  unfold attach. rewrite Hauth. cbn. repeat split; reflexivity.
Qed.

(** The server half of C9: the handler always answers, and a proof is on
    the request it leaves only if the verification succeeded. *)
Lemma proof_only_if_verified (config : L402MiddlewareConfig) (req : Request)
    (res : ServerResponse) (w : World) :
  exists req' res' w',
    l402_handler config req res w = (Return (req', res'), w') /\
    untouched_or_verified req req' w w'.
Proof.
  unfold l402_handler.
  assert (Hchallenge : exists req' res' w',
             issue_challenge config req res w = (Return (req', res'), w') /\
             untouched_or_verified req req' w w').
  { destruct (issue_challenge_outcome config req res w) as (res' & w' & Hrun & Hnext & _).
    exists req, res', w'. split; [exact Hrun |]. left. auto. }
  assert (Hinvalid : exists req' res' w',
             invalid_token req res w = (Return (req', res'), w') /\
             untouched_or_verified req req' w w').
  { unfold invalid_token, ret. eexists _, _, _. split; [reflexivity |]. left. auto. }
  destruct (authorization req) as [authHeader |] eqn:Hauth; [| exact Hchallenge].
  destruct (JS.truthy (VStr authHeader) && _); [| exact Hchallenge].
  fold (token_of authHeader). fold (colon_of authHeader).
  fold (macaroon_of authHeader). fold (preimage_of authHeader).
  destruct (_ >? 0); [| exact Hinvalid].
  destruct (parseServiceMacaroon _) as [macaroonData |] eqn:Hparse; [| exact Hinvalid].
  destruct (parseServiceMacaroon_Some _ _ Hparse) as (hash & Hhash & _).
  destruct (get_defined _ _ _ "service" Hhash) as [service Hservice].
  rewrite bind_lift, Hhash.
  destruct (verifyPreimage _ hash) eqn:Hverify; [| exact Hinvalid].
  rewrite bind_lift, Hservice.
  eexists _, _, _. split; [reflexivity |]. right.
  exists authHeader, macaroonData,
    {| paid := true; preimage := preimage_of authHeader;
       paymentHash := hash; service := service |}.
  split; [exact Hauth |]. split; [exact Hparse |]. split; [exact Hhash |].
  split; [reflexivity |]. split; [exact Hverify |]. reflexivity.
Qed.

(** X2: a credential whose preimage does not verify against the payment
    hash of its macaroon is answered with a 401; the request is handed back
    as it came and [next] is not called. *)
Theorem wrong_preimage_is_rejected
    (config : L402MiddlewareConfig) (req : Request) (res : ServerResponse) (w : World)
    (authHeader : string) (macaroonData hash : Value) :
  authorization req = Some authHeader ->
  JS.startsWith "l402 " (JS.toLowerCase authHeader) = true ->
  parseServiceMacaroon (macaroon_of authHeader) = Some macaroonData ->
  JS.get macaroonData "paymentHash" = Return hash ->
  verifyPreimage (preimage_of authHeader) hash = false ->
  l402_handler config req res w =
    (Return (req, send_json (VObj [("error", VStr "Invalid L402 token")])
                    (set_status 401 res)), w).
Proof.
  intros Hauth Hscheme Hparse Hhash Hverify.
  unfold l402_handler. rewrite Hauth, (scheme_truthy _ Hscheme), Hscheme. cbn [andb].
  fold (token_of authHeader). fold (colon_of authHeader).
  fold (macaroon_of authHeader). fold (preimage_of authHeader).
  destruct (colon_of authHeader >? 0); [| reflexivity].
  rewrite Hparse, bind_lift, Hhash, Hverify. reflexivity.
Qed.

End MiddlewareProperties.

Section Propagation.
Context `{Platform} `{Network}.

(** C9: a payment that fails (the settlement call rejects, is answered with
    a failure status, or reports a [payment_error]) makes [l402Fetch] throw
    and leaves the token cache as it was; and whatever the middleware is
    sent, it leaves a proof on the request only if the preimage of the
    credential verified against the payment hash of its macaroon. *)
Theorem C9_failures_leave_no_state :
  (forall (config : L402ClientConfig) (url : string) (options : RequestInit)
          (w w1 w2 : World) (res : Response) (challenge price invoice : Value)
          (out : Result Response),
      fetch url (with_headers options (initial_headers (tokenCache w) url options)) w
        = (Return res, w1) ->
      status res = 402 ->
      json res = Return challenge ->
      JS.get challenge "price" = Return price ->
      JS.gt (JS.ToNumber price) (ceiling config) = false ->
      JS.get challenge "invoice" = Return invoice ->
      lndFetch (settlement_url config) (settlement_init config invoice)
        (skipTlsVerify (client_node config)) w1 = (out, w2) ->
      payment_failed out ->
      (exists e, l402Fetch config url options w = (Throw e, w2)) /\
      tokenCache w2 = tokenCache w) /\
  (forall (config : L402MiddlewareConfig) (req : Request) (res : ServerResponse)
          (w : World),
      exists req' res' w',
        l402_handler config req res w = (Return (req', res'), w') /\
        untouched_or_verified req req' w w').
Proof.
  split.
  - intros. eapply failed_payment_keeps_cache; eassumption.
  - apply proof_only_if_verified.
Qed.

End Propagation.

(** ** The scenarios of the test suites, run on [Node] and [Script] *)

Import Fixtures Scenarios.

(** Known answers of SHA-256: the empty message, and the preimage of the
    tests. *)
Example sha256_empty :
  commit EmptyString = "e3b0c44298fc1c149afbf4c8996fb92427ae41e4649b934ca495991b7852b855".
Proof. vm_compute. reflexivity. Qed.

Example sha256_test_preimage :
  commit PREIMAGE_HEX = "964d416b01134ba7a3a1aa0d4ef7410ef431756f83673e69f8e0fc3a05807190".
Proof. vm_compute. reflexivity. Qed.

(** A message of four blocks: two hundred times the letter a. *)
Example sha256_four_blocks :
  Hex.encode (Sha256.digest (List.repeat 97 200))
  = "c2a908d98f5df987ade41b5fce213067efbcc21ef2240212a41e54b5e7c28ae5".
Proof. vm_compute. reflexivity. Qed.

Example sha256_constants :
  List.length Sha256.K = 64%nat /\
  List.nth 0 Sha256.K 0 = 0x428a2f98 /\ List.nth 63 Sha256.K 0 = 0xc67178f2 /\
  List.nth 0 Sha256.H0 0 = 0x6a09e667 /\ List.nth 7 Sha256.H0 0 = 0x5be0cd19.
Proof. repeat split; reflexivity. Qed.

(** "produces a macaroon that can be verified with the correct preimage":
    the macaroon of the fixtures is the one the middleware issues. *)
Example issued_macaroon_parses :
  parseServiceMacaroon MACAROON_B64 = Some macaroon_data.
Proof. vm_compute. reflexivity. Qed.

(** C5, witness: "rejects prices above maxAutoPaySats", ceiling 1000 and
    price 50000. *)
Lemma C5_witness :
  fst (l402Fetch client_1000 expensive_url no_options (start [make402Response 50000]))
  = Throw (Error "L402 price (50000 sats) exceeds maxAutoPaySats (1000). Increase the limit or pay manually.").
Proof.
  edestruct (C5_price_above_ceiling_is_not_paid client_1000 expensive_url no_options
               (start [make402Response 50000])) as (Hrun & _ & _);
    [ reflexivity | reflexivity | reflexivity | reflexivity | reflexivity | ].
  rewrite Hrun. reflexivity.
Defined.



(** C7, witness: "calls next() with valid preimage". *)
Lemma C7_witness :
  exists proof req' w',
    l402_handler price_100 (mockReq (Some valid_credential)) mockRes (start [])
      = (Return (req', mockRes), w') /\
    next_calls w' = [req'] /\
    l402_proof req' = Some proof /\
    authorization req' = Some valid_credential /\
    path req' = "/api/test" /\
    paymentHash proof = VStr PAYMENT_HASH.
Proof.
  destruct (C7_verified_credential_reaches_next price_100
              (mockReq (Some valid_credential)) mockRes (start []) valid_credential
              macaroon_data (VStr PAYMENT_HASH))
    as (proof & req' & w' & Hrun & Hnext & _ & Hreq & Hproof & _ & _ & Hhash).
  - reflexivity.
  - reflexivity.
  - vm_compute. reflexivity.
  - vm_compute. reflexivity.
  - reflexivity.
  - vm_compute. reflexivity.
  - exists proof, req', w'. split; [exact Hrun |]. split; [exact Hnext |].
    split; [exact Hproof |]. rewrite Hreq. repeat split. exact Hhash.
Defined.

(** C8, witness: "caches tokens and reuses them on subsequent requests";
    four calls of [fetch] in all, none of them a second payment, and the
    fourth carries the cached credential. *)
Lemma C8_witness :
  tokenCache (snd first_fetch) !! joke_url = Some valid_credential /\
  exists r2 call,
    l402Fetch client_default joke_url no_options (snd first_fetch) = (r2, snd second_call) /\
    calls (snd second_call) = (calls (snd first_fetch) ++ [call])%list /\
    List.length (calls (snd second_call)) = 4%nat /\
    call_url call = joke_url /\
    headers (call_init call) !! "Authorization" = Some valid_credential.
Proof.
  destruct (C8_second_fetch_reuses_credential client_default joke_url no_options
              no_options (start caching_script) (snd first_fetch)
              {| data := VObj [("first", VBool true)]; result_paid := true;
                 result_price := VNum (Int 100);
                 result_preimage := Some PREIMAGE_HEX |})
    as (token & Htoken & Hsecond).
  - vm_compute. reflexivity.
  - reflexivity.
  - assert (Hcached : tokenCache (snd first_fetch) !! joke_url = Some valid_credential)
      by (vm_compute; reflexivity).
    split; [exact Hcached |].
    assert (token = valid_credential) as -> by congruence.
    destruct (Hsecond (fst second_call) (snd second_call))
      as (r2 & call & Hrun & _ & Hcalls & Hcall & Hheader & _).
    + vm_compute. reflexivity.
    + intros res [= <-]. vm_compute. discriminate.
    + exists r2, call. split; [exact Hrun |]. split; [exact Hcalls |].
      split; [rewrite Hcalls; rewrite Hcall; vm_compute; reflexivity |].
      split; [rewrite Hcall; reflexivity | exact Hheader].
Defined.

(** C9, witness: "throws when LND returns a payment error" leaves the cache
    empty, and "returns 401 for wrong preimage" hands the request back as
    it came. *)
Lemma C9_witness :
  (exists e, l402Fetch client_default test_url no_options
               (start [make402Response 100; insufficient_balance])
             = (Throw e, snd failed_payment)) /\
  tokenCache (snd failed_payment) = ∅ /\
  exists res' w',
    l402_handler price_100 (mockReq (Some wrong_preimage)) mockRes (start [])
      = (Return (mockReq (Some wrong_preimage), res'), w').
Proof.
  destruct C9_failures_leave_no_state as [Hclient Hserver].
  split; [| split].
  - eapply (Hclient client_default test_url no_options
              (start [make402Response 100; insufficient_balance]));
      [ reflexivity | reflexivity | reflexivity | reflexivity | reflexivity | reflexivity
      | vm_compute; reflexivity
      | right; eexists _, _; split; [reflexivity |]; split; reflexivity ].
  - eapply (Hclient client_default test_url no_options
              (start [make402Response 100; insufficient_balance]));
      [ reflexivity | reflexivity | reflexivity | reflexivity | reflexivity | reflexivity
      | vm_compute; reflexivity
      | right; eexists _, _; split; [reflexivity |]; split; reflexivity ].
  - destruct (Hserver price_100 (mockReq (Some wrong_preimage)) mockRes (start []))
      as (req' & res' & w' & Hrun &
          [[-> _] | (h & macaroonData & proof & Hauth & Hparse & Hhash & _ & Hverify & _)]).
    + eauto.
    + exfalso. injection Hauth as <-.
      assert (Hdata : parseServiceMacaroon (macaroon_of wrong_preimage) = Some macaroon_data)
        by (vm_compute; reflexivity).
      rewrite Hdata in Hparse. injection Hparse as <-.
      cbn in Hhash. injection Hhash as Hsame. rewrite <- Hsame in Hverify.
      revert Hverify. vm_compute. discriminate.
Defined.

(** C10, witness: the payment goes through and the server then answers the
    repeated request with a 401; the client returns that body with
    [paid = true], and the credential is in the cache. *)
Lemma C10_witness :
  fst paid_and_refused
    = Return {| data := VObj [("error", VStr "Invalid L402 token")];
                result_paid := true; result_price := VNum (Int 100);
                result_preimage := Some PREIMAGE_HEX |} /\
  tokenCache (snd paid_and_refused) !! joke_url = Some valid_credential.
Proof.
  edestruct (C10_retry_is_returned_unchecked client_default joke_url no_options
               (start [make402Response 100; makeLndPaymentResponse; refused]))
    as (Hrun & Hcache);
    [ reflexivity | reflexivity | reflexivity | reflexivity | reflexivity | reflexivity
    | reflexivity | vm_compute; reflexivity | reflexivity | reflexivity | reflexivity
    | reflexivity | vm_compute; reflexivity | reflexivity | ].
  assert (Hsame : l402Fetch client_default joke_url no_options
                    (start [make402Response 100; makeLndPaymentResponse; refused])
                  = paid_and_refused) by (vm_compute; reflexivity).
  rewrite Hsame in Hrun. split.
  - rewrite Hrun. vm_compute. reflexivity.
  - rewrite Hrun. cbn [snd]. rewrite Hcache. vm_compute. reflexivity.
Defined.

(** C2, on the code: "returns 500 for price of 0" expects a 500.  The
    middleware does not look at the price: with a node that creates the
    invoice, a configured price of 0 is answered with a 402 challenge whose
    body carries price 0. *)
Theorem C2_zero_price_challenge_is_issued :
  exists res' w' challenge,
    l402_handler price_0 (mockReq None) mockRes (start [invoice_created])
      = (Return (mockReq None, res'), w') /\
    statusCode res' = 402 /\
    res_body res' = Some (VObj challenge) /\
    JS.lookup "price" challenge = VNum (Int 0).
Proof.
  eexists _, _, _. split; [vm_compute; reflexivity |].
  split; [reflexivity |]. split; reflexivity.
Qed.

(** C3, on the code: "does not set NODE_TLS_REJECT_UNAUTHORIZED globally on
    construction" expects the variable to stay unset.  Building the
    middleware with [skipTlsVerify] writes "0" into it before any call to
    the node, and handling a request leaves it there. *)
Theorem C3_middleware_leaves_tls_check_disabled :
  tls_env (start [invoice_created]) = None /\
  tls_env (snd (l402 skip_tls_config (start [invoice_created]))) = Some "0" /\
  calls (snd (l402 skip_tls_config (start [invoice_created]))) = [] /\
  tls_env (snd (l402_handler skip_tls_config (mockReq None) mockRes
                  (snd (l402 skip_tls_config (start [invoice_created])))))
    = Some "0".
Proof. repeat split; vm_compute; reflexivity. Qed.

(** X2, witness: "returns 401 for wrong preimage". *)
Lemma wrong_preimage_witness :
  fst (l402_handler price_100 (mockReq (Some wrong_preimage)) mockRes (start []))
  = Return (mockReq (Some wrong_preimage),
            {| statusCode := 401; res_headers := ∅;
               res_body := Some (VObj [("error", VStr "Invalid L402 token")]) |}).
Proof.
  rewrite (wrong_preimage_is_rejected price_100 (mockReq (Some wrong_preimage)) mockRes
             (start []) wrong_preimage macaroon_data (VStr PAYMENT_HASH));
    [ reflexivity | reflexivity | reflexivity | vm_compute; reflexivity | reflexivity
    | vm_compute; reflexivity ].
Defined.

(** ** Further properties: strings and the credential *)

Lemma length_append (a b : string) :
  String.length (a ++ b) = (String.length a + String.length b)%nat.
Proof. induction a as [| c a IH]; simpl; [reflexivity | rewrite IH; reflexivity]. Qed.

Lemma append_associative (a b c : string) : (a ++ b) ++ c = a ++ b ++ c.
Proof.
  induction a as [| x a IH]; [reflexivity |].
  change (String x ((a ++ b) ++ c) = String x (a ++ b ++ c)).
  rewrite IH. reflexivity.
Qed.

Lemma substring_all (s : string) : String.substring 0 (String.length s) s = s.
Proof. induction s as [| c s IH]; simpl; [reflexivity | rewrite IH; reflexivity]. Qed.

Lemma substring_head (a b : string) : String.substring 0 (String.length a) (a ++ b) = a.
Proof.
  induction a as [| c a IH]; simpl.
  - destruct b; reflexivity.
  - rewrite IH. reflexivity.
Qed.

Lemma substring_tail (a b : string) (n : nat) :
  String.substring (String.length a) n (a ++ b) = String.substring 0 n b.
Proof. induction a as [| c a IH]; simpl; [reflexivity | exact IH]. Qed.

Lemma slice_from_append (a b : string) :
  JS.slice_from (Z.of_nat (String.length a)) (a ++ b) = b.
Proof.
  unfold JS.slice_from. rewrite Nat2Z.id, length_append, substring_tail.
  replace (String.length a + String.length b - String.length a)%nat
    with (String.length b) by lia.
  apply substring_all.
Qed.

Lemma slice_append (a b : string) :
  JS.slice 0 (Z.of_nat (String.length a)) (a ++ b) = a.
Proof.
  unfold JS.slice. rewrite Z.sub_0_r, Nat2Z.id. apply substring_head.
Qed.

Lemma lastIndexOf_from_append (c : ascii) (a b : string) (i found : Z) :
  JS.lastIndexOf_from c (a ++ b) i found =
  JS.lastIndexOf_from c b (i + Z.of_nat (String.length a)) (JS.lastIndexOf_from c a i found).
Proof.
  revert i found. induction a as [| x a IH]; intros i found; simpl.
  - rewrite Z.add_0_r. reflexivity.
  - rewrite IH. f_equal. lia.
Qed.

Lemma lastIndexOf_from_absent (c : ascii) (s : string) (i found : Z) :
  contains c s = false -> JS.lastIndexOf_from c s i found = found.
Proof.
  revert i found. induction s as [| x s IH]; intros i found Habsent; [reflexivity |].
  cbn in Habsent. apply orb_false_iff in Habsent as [Hx Hs].
  cbn. rewrite Hx. apply IH. exact Hs.
Qed.

(** The last colon of [m:p] is the one written between the two when [p]
    has none. *)
Lemma lastIndexOf_separator (m p : string) :
  contains ":" p = false ->
  JS.lastIndexOf ":" (m ++ ":" ++ p) = Z.of_nat (String.length m).
Proof.
  intros Habsent. unfold JS.lastIndexOf.
  rewrite lastIndexOf_from_append. simpl.
  change (EmptyString ++ p) with p.
  rewrite lastIndexOf_from_absent by assumption. lia.
Qed.

Lemma toLowerCase_append (a b : string) :
  JS.toLowerCase (a ++ b) = JS.toLowerCase a ++ JS.toLowerCase b.
Proof. induction a as [| c a IH]; simpl; [reflexivity | rewrite IH; reflexivity]. Qed.

Lemma toLowerCase_length (s : string) : String.length (JS.toLowerCase s) = String.length s.
Proof. induction s as [| c s IH]; simpl; [reflexivity | rewrite IH; reflexivity]. Qed.

Lemma prefix_append (a b : string) : String.prefix a (a ++ b) = true.
Proof.
  induction a as [| c a IH]; simpl; [destruct b; reflexivity |].
  destruct (ascii_dec c c) as [_ | Hne]; [exact IH | contradiction].
Qed.

Lemma credential_parts (scheme m p : string) :
  String.length scheme = 5%nat ->
  contains ":" p = false ->
  token_of (scheme ++ m ++ ":" ++ p) = m ++ ":" ++ p /\
  colon_of (scheme ++ m ++ ":" ++ p) = Z.of_nat (String.length m) /\
  macaroon_of (scheme ++ m ++ ":" ++ p) = m /\
  preimage_of (scheme ++ m ++ ":" ++ p) = p.
Proof.
  intros Hlen Hp.
  assert (Htoken : token_of (scheme ++ m ++ ":" ++ p) = m ++ ":" ++ p).
  { unfold token_of. change 5 with (Z.of_nat 5). rewrite <- Hlen. apply slice_from_append. }
  assert (Hcolon : colon_of (scheme ++ m ++ ":" ++ p) = Z.of_nat (String.length m)).
  { unfold colon_of. rewrite Htoken. apply lastIndexOf_separator. exact Hp. }
  split; [exact Htoken |]. split; [exact Hcolon |]. split.
  - unfold macaroon_of. rewrite Hcolon, Htoken. apply slice_append.
  - unfold preimage_of. rewrite Hcolon, Htoken.
    replace (Z.of_nat (String.length m) + 1) with (Z.of_nat (String.length (m ++ ":")))
      by (rewrite length_append; simpl; lia).
    rewrite <- append_associative. apply slice_from_append.
Qed.

Lemma scheme_named (scheme rest : string) :
  JS.toLowerCase scheme = "l402 " -> l402_scheme (Some (scheme ++ rest)) = true.
Proof.
  intros Hscheme. unfold l402_scheme.
  rewrite toLowerCase_append, Hscheme. unfold JS.startsWith. rewrite prefix_append.
  destruct scheme; [discriminate Hscheme | reflexivity].
Qed.

(** X3: a credential [<scheme> <macaroon>:<preimage>], with the scheme in
    any case, a macaroon that is not empty and a preimage without a colon,
    is taken for an L402 credential and split back into the macaroon and
    the preimage, whatever colons the macaroon contains. *)
Theorem credential_splits (scheme m p : string) :
  JS.toLowerCase scheme = "l402 " ->
  m <> EmptyString ->
  contains ":" p = false ->
  l402_scheme (Some (scheme ++ m ++ ":" ++ p)) = true /\
  colon_of (scheme ++ m ++ ":" ++ p) > 0 /\
  macaroon_of (scheme ++ m ++ ":" ++ p) = m /\
  preimage_of (scheme ++ m ++ ":" ++ p) = p.
Proof.
  intros Hscheme Hm Hp.
  assert (Hlen : String.length scheme = 5%nat).
  { rewrite <- toLowerCase_length, Hscheme. reflexivity. }
  destruct (credential_parts scheme m p Hlen Hp) as (_ & Hcolon & Hmacaroon & Hpreimage).
  split; [apply scheme_named; exact Hscheme |].
  split; [| split; assumption].
  rewrite Hcolon. destruct m; [contradiction | cbn; lia].
Qed.

(** ** Further properties: what verification accepts *)

Lemma unhex_lower (c : ascii) : Hex.unhex (JS.lower c) = Hex.unhex c.
Proof. destruct c as [[] [] [] [] [] [] [] []]; reflexivity. Qed.

Lemma decode_toLowerCase (s : string) : Hex.decode (JS.toLowerCase s) = Hex.decode s.
Proof.
  assert (Hboth : Hex.decode (JS.toLowerCase s) = Hex.decode s /\
                  forall c, Hex.decode (JS.toLowerCase (String c s)) = Hex.decode (String c s)).
  { induction s as [| a s [IH0 IH1]]; [split; [reflexivity | intros c; reflexivity] |].
    split; [apply IH1 |].
    intros c. cbn [JS.toLowerCase Hex.decode].
    rewrite !unhex_lower, IH0. reflexivity. }
  apply Hboth.
Qed.

(** X4: the preimage is read as hexadecimal text in either case: two
    preimages that differ only in the case of their letters verify against
    the same payment hashes. *)
Theorem preimage_case_is_ignored (p1 p2 : string) (paymentHash : Value) :
  JS.toLowerCase p1 = JS.toLowerCase p2 ->
  verifyPreimage p1 paymentHash = verifyPreimage p2 paymentHash.
Proof.
  intros Hcase. unfold verifyPreimage.
  rewrite <- (decode_toLowerCase p1), <- (decode_toLowerCase p2), Hcase. reflexivity.
Qed.

Lemma decode_append (bs : list Z) (tail : string) :
  Forall octet bs -> Hex.decode (Hex.encode bs ++ tail) = (bs ++ Hex.decode tail)%list.
Proof.
  induction 1 as [| b bs Hb _ IH]; [reflexivity |].
  destruct (nibbles b Hb) as (Hhi & Hlo & Hsum).
  cbn [Hex.encode].
  change (Hex.decode (String (Hex.digit (b / 16))
            (String (Hex.digit (b mod 16)) (Hex.encode bs ++ tail)))
          = (b :: (bs ++ Hex.decode tail))%list).
  cbn [Hex.decode].
  rewrite (unhex_digit _ Hhi), (unhex_digit _ Hlo), IH, Hsum. reflexivity.
Qed.

(** X5: [Buffer.from(preimage, 'hex')] stops at the first pair that is not
    hexadecimal, so text after a well-formed preimage that does not start
    with two hexadecimal digits makes no difference to the verification. *)
Theorem text_after_preimage_is_ignored (octets : list Z) (tail : string)
    (paymentHash : Value) :
  Forall octet octets ->
  Hex.decode tail = [] ->
  verifyPreimage (Hex.encode octets ++ tail) paymentHash
  = verifyPreimage (Hex.encode octets) paymentHash.
Proof.
  intros Hoctets Htail. unfold verifyPreimage.
  rewrite (decode_append _ _ Hoctets), Htail, app_nil_r, (decode_encode _ Hoctets).
  reflexivity.
Qed.

Lemma encode_length (bs : list Z) :
  String.length (Hex.encode bs) = (2 * List.length bs)%nat.
Proof. induction bs as [| b bs IH]; [reflexivity |]. cbn [Hex.encode String.length List.length]. lia. Qed.

Lemma be_bytes_length (width : nat) (x : Z) : List.length (Sha256.be_bytes width x) = width.
Proof. unfold Sha256.be_bytes. rewrite length_map, length_rev, length_seq. reflexivity. Qed.

Lemma compress_length (h block : list Z) :
  List.length h = 8%nat -> List.length (Sha256.compress h block) = 8%nat.
Proof.
  intros Hh. unfold Sha256.compress.
  rewrite length_map, length_combine, Hh. reflexivity.
Qed.

Lemma blocks_length (n : nat) (ws h : list Z) :
  List.length h = 8%nat -> List.length (Sha256.blocks n ws h) = 8%nat.
Proof.
  revert ws h. induction n as [| n IH]; intros ws h Hh; [exact Hh |].
  cbn [Sha256.blocks]. apply IH, compress_length, Hh.
Qed.

Lemma digest_length (msg : list Z) : List.length (Sha256.digest msg) = 32%nat.
Proof.
  unfold Sha256.digest.
  pose proof (blocks_length (List.length (Sha256.words (Sha256.pad msg)) / 16)
                (Sha256.words (Sha256.pad msg)) Sha256.H0 eq_refl) as Hlen.
  destruct (Sha256.blocks _ _ _) as [| a [| b [| c [| d [| e [| f [| g [| h [| ? ?]]]]]]]]];
    try discriminate Hlen.
  cbn [List.flat_map]. rewrite !length_app, !be_bytes_length. reflexivity.
Qed.

(** X6: a payment hash that some preimage verifies against is a string of
    sixty-four hexadecimal digits in lower case; a hash of any other shape
    (upper case, another length, a number) is verified by no preimage. *)
Theorem verified_hash_shape (preimage : string) (paymentHash : Value) :
  verifyPreimage preimage paymentHash = true ->
  exists hash,
    paymentHash = VStr hash /\
    String.length hash = 64%nat /\
    JS.toLowerCase hash = hash /\
    List.length (Hex.decode hash) = 32%nat.
Proof.
  unfold verifyPreimage, JS.strict_equal_string.
  destruct paymentHash as [| | | | hash | |]; try discriminate.
  intros Heq. apply String.eqb_eq in Heq. subst hash.
  eexists. split; [reflexivity |].
  pose proof (digest_octets (Hex.decode preimage)) as Hoctets.
  rewrite encode_length, digest_length, (encode_lower_case _ Hoctets),
    (decode_encode _ Hoctets), digest_length.
  repeat split; reflexivity.
Qed.

(** ** Further properties: the calls to the node *)

Section Runs.
Context `{Platform} `{Network}.

Lemma fetch_run (url : string) (init : RequestInit) (w : World)
    (out : Result Response) (n : Net) :
  respond (net w) (call_of w url init) = (out, n) ->
  fetch url init w = (out, after_call w (call_of w url init) n).
Proof. unfold fetch. fold (call_of w url init). intros ->. reflexivity. Qed.

Lemma lndFetch_run (url : string) (init : RequestInit) (skip : option bool) (w : World)
    (out : Result Response) (n : Net) :
  respond (net w)
    {| call_url := url; call_init := init;
       call_tls := if enabled skip then Some "0" else tls_env w |} = (out, n) ->
  lndFetch url init skip w =
    (out, after_call w {| call_url := url; call_init := init;
                          call_tls := if enabled skip then Some "0" else tls_env w |} n).
Proof.
  unfold lndFetch. destruct (enabled skip); cbn [negb]; intros Hanswer.
  - unfold bind, get_tls_env, set_tls_env, try_finally, fetch. cbn.
    rewrite Hanswer. unfold after_call.
    destruct w as [env ? ? ? ? ? ?]. destruct env; reflexivity.
  - apply fetch_run. exact Hanswer.
Qed.

(** X7: [lndFetch] makes exactly one call; that call sees the TLS check
    switched off if and only if [skipTlsVerify] is set; the outcome is the
    network's, whether it resolves or rejects; and afterwards the environment
    variable is what it was before. *)
Theorem lndFetch_scopes_the_opt_out (url : string) (init : RequestInit)
    (skip : option bool) (w : World) :
  let call := {| call_url := url; call_init := init;
                 call_tls := if enabled skip then Some "0" else tls_env w |} in
  fst (lndFetch url init skip w) = fst (respond (net w) call) /\
  net (snd (lndFetch url init skip w)) = snd (respond (net w) call) /\
  calls (snd (lndFetch url init skip w)) = (calls w ++ [call])%list /\
  tls_env (snd (lndFetch url init skip w)) = tls_env w.
Proof.
  intros call.
  rewrite (lndFetch_run url init skip w (fst (respond (net w) call)) (snd (respond (net w) call)))
    by (subst call; destruct (respond _ _); reflexivity).
  repeat split; reflexivity.
Qed.

Lemma createInvoice_run (config : L402MiddlewareConfig) (amount : number) (memo : string)
    (w : World) (out : Result Response) (n : Net) :
  respond (net w) (invoice_call config amount memo w) = (out, n) ->
  createInvoice (restHost (node config)) (macaroon (node config)) amount memo w =
    (match out with
     | Throw e => Throw e
     | Return r => if ok r then json r
                   else Throw (Error ("LND invoice creation failed: " ++ http_failure r))
     end, after_call w (invoice_call config amount memo w) n).
Proof.
  intros Hanswer. unfold createInvoice.
  destruct out as [r | e].
  - rewrite (bind_Return _ _ _ _ _ (fetch_run _ _ _ _ _ Hanswer)).
    destruct (ok r); reflexivity.
  - rewrite (bind_Throw _ _ _ _ _ (fetch_run _ _ _ _ _ Hanswer)). reflexivity.
Qed.

Lemma payInvoice_run (config : L402ClientConfig) (invoice : Value)
    (w : World) (out : Result Response) (n : Net) :
  respond (net w) (settlement_call config invoice w) = (out, n) ->
  payInvoice (restHost (client_node config)) (macaroon (client_node config)) invoice
    (skipTlsVerify (client_node config)) w =
    (match out with
     | Throw e => Throw e
     | Return r => if ok r then json r
                   else Throw (Error ("LND payment failed: " ++ http_failure r))
     end, after_call w (settlement_call config invoice w) n).
Proof.
  intros Hanswer. unfold payInvoice.
  pose proof (lndFetch_run (settlement_url config) (settlement_init config invoice)
                (skipTlsVerify (client_node config)) w out n Hanswer) as Hrun.
  destruct out as [r | e].
  - rewrite (bind_Return _ _ _ _ _ Hrun). destruct (ok r); reflexivity.
  - rewrite (bind_Throw _ _ _ _ _ Hrun). reflexivity.
Qed.

End Runs.

(** ** Further properties: macaroons and credentials at the middleware *)

Section Credentials.
Context `{Platform} `{Network}.

(** X8: what [parseServiceMacaroon] lets through is exactly an object that
    [JSON.parse] yields from the decoded text and whose [version] and
    [paymentHash] are truthy.  Text that does not parse, [null], numbers,
    strings and arrays give [null]; [service] and [issuedAt] are not looked
    at. *)
Theorem parseServiceMacaroon_accepts (macaroonBase64 : string) (data : Value) :
  parseServiceMacaroon macaroonBase64 = Some data <->
  exists fields,
    data = VObj fields /\
    JSON_parse (JS.text (base64_decode macaroonBase64)) = Return (VObj fields) /\
    JS.truthy (JS.lookup "version" fields) = true /\
    JS.truthy (JS.lookup "paymentHash" fields) = true.
Proof.
  unfold parseServiceMacaroon.
  destruct (JSON_parse _) as [parsed | e];
    [| split; [discriminate | intros (fields & _ & [=] & _)]].
  split.
  - destruct parsed; cbn; try discriminate.
    destruct (JS.truthy (JS.lookup "version" fields)) eqn:Hversion; [| discriminate].
    destruct (JS.truthy (JS.lookup "paymentHash" fields)) eqn:Hhash; [| discriminate].
    intros [= <-]. exists fields. repeat split; assumption.
  - intros (fields & -> & [= ->] & Hversion & Hhash).
    cbn. rewrite Hversion, Hhash. reflexivity.
Qed.

(** X9: the macaroon the middleware issues is read back by the middleware
    as the token it serialised, provided the payment hash is not the empty
    string; issued for an empty payment hash, it is refused.  The platform's
    codecs are assumed to read back what they wrote for this token. *)
Theorem issued_macaroon_reads_back (hash service : string) (w : World) :
  JSON_parse (JS.text (base64_decode (issued_macaroon hash service (clock w))))
    = Return (macaroon_value hash service (clock w)) ->
  createServiceMacaroon hash service w
    = (Return (issued_macaroon hash service (clock w)), w) /\
  parseServiceMacaroon (issued_macaroon hash service (clock w))
    = if String.eqb hash "" then None else Some (macaroon_value hash service (clock w)).
Proof.
  intros Hcodec. split; [reflexivity |].
  unfold parseServiceMacaroon. rewrite Hcodec. cbn.
  destruct (String.eqb hash ""); reflexivity.
Qed.

Lemma digit_is_no_colon (n : Z) : 0 <= n < 16 -> Ascii.eqb (Hex.digit n) ":" = false.
Proof.
  intros Hn.
  pose proof (sixteen (fun d => negb (Ascii.eqb (Hex.digit d) ":")) eq_refl n Hn) as Hcheck.
  cbv beta in Hcheck. apply negb_true_iff in Hcheck. exact Hcheck.
Qed.

Lemma encode_has_no_colon (bs : list Z) : Forall octet bs -> contains ":" (Hex.encode bs) = false.
Proof.
  induction 1 as [| b bs Hb _ IH]; [reflexivity |].
  destruct (nibbles b Hb) as (Hhi & Hlo & _).
  cbn [Hex.encode contains].
  rewrite (digit_is_no_colon _ Hhi), (digit_is_no_colon _ Hlo), IH. reflexivity.
Qed.

(** The branch of the handler for a header that names the scheme. *)
Lemma credential_verdict (config : L402MiddlewareConfig) (req : Request)
    (res : ServerResponse) (w : World) (authHeader : string) :
  authorization req = Some authHeader ->
  l402_scheme (Some authHeader) = true ->
  l402_handler config req res w =
    match (if colon_of authHeader >? 0
           then parseServiceMacaroon (macaroon_of authHeader) else None) with
    | Some (VObj fields) =>
        if verifyPreimage (preimage_of authHeader) (JS.lookup "paymentHash" fields) then
          let req' := attach (proof_of authHeader (JS.lookup "paymentHash" fields)
                                (JS.lookup "service" fields)) req in
          (Return (req', res), handed_on req' w)
        else (Return (req, unauthorized res), w)
    | _ => (Return (req, unauthorized res), w)
    end.
Proof.
  intros Hauth Hscheme. unfold l402_handler. rewrite Hauth.
  unfold l402_scheme in Hscheme. rewrite Hscheme.
  fold (token_of authHeader). fold (colon_of authHeader).
  fold (macaroon_of authHeader). fold (preimage_of authHeader).
  destruct (colon_of authHeader >? 0); [| reflexivity].
  destruct (parseServiceMacaroon _) as [macaroonData |] eqn:Hparse; [| reflexivity].
  destruct (parseServiceMacaroon_Some _ _ Hparse) as (hash & Hhash & Htruthy).
  destruct macaroonData; cbn in Hhash; try discriminate Hhash;
    injection Hhash as <-; try discriminate Htruthy.
  rewrite bind_lift. cbn [JS.get].
  destruct (verifyPreimage _ _); [| reflexivity].
  rewrite bind_lift. reflexivity.
Qed.

End Credentials.

Section Verdicts.
Context `{Platform} `{Network}.

(** X10: the client and the middleware agree on the credential.  The
    header the client builds from a challenge's macaroon and the octets of
    the preimage its node returned is accepted by the middleware whenever
    the macaroon parses there and its payment hash is the hexadecimal
    SHA-256 digest of those octets: [next] is handed the request that came
    with its [l402] member set to a proof that carries the preimage in
    hexadecimal and that payment hash. *)
Theorem client_credential_is_accepted
    (config : L402MiddlewareConfig) (req : Request) (res : ServerResponse) (w : World)
    (mac : string) (octets : list Z) (fields : list (string * Value)) :
  authorization req = Some (credential (VStr mac) octets) ->
  mac <> EmptyString ->
  Forall octet octets ->
  parseServiceMacaroon mac = Some (VObj fields) ->
  JS.lookup "paymentHash" fields = VStr (Hex.encode (Sha256.digest octets)) ->
  exists proof req' w',
    l402_handler config req res w = (Return (req', res), w') /\
    next_calls w' = (next_calls w ++ [req'])%list /\
    req' = {| authorization := authorization req; req_method := req_method req;
              path := path req; req_body := req_body req;
              l402_proof := Some proof |} /\
    l402_proof req' = Some proof /\
    paid proof = true /\
    preimage proof = Hex.encode octets /\
    paymentHash proof = VStr (Hex.encode (Sha256.digest octets)).
Proof.
  intros Hauth Hmac Hoctets Hparse Hhash.
  assert (Hparts := credential_parts "L402 " mac (Hex.encode octets) eq_refl
                      (encode_has_no_colon _ Hoctets)).
  change ("L402 " ++ mac ++ ":" ++ Hex.encode octets)
    with (credential (VStr mac) octets) in Hparts.
  destruct Hparts as (_ & Hcolon & Hmacaroon & Hpreimage).
  rewrite (credential_verdict config req res w _ Hauth (scheme_named "L402 " _ eq_refl)).
  rewrite Hcolon, Hmacaroon, Hpreimage.
  replace (Z.of_nat (String.length mac) >? 0) with true
    by (symmetry; apply Z.gtb_gt; destruct mac; [contradiction | cbn; lia]).
  rewrite Hparse, Hhash.
  unfold verifyPreimage, JS.strict_equal_string.
  rewrite (decode_encode _ Hoctets), String.eqb_refl.
  exists (proof_of (credential (VStr mac) octets)
            (VStr (Hex.encode (Sha256.digest octets))) (JS.lookup "service" fields)).
  eexists _, _. split; [reflexivity |].
  unfold proof_of, attach, handed_on. cbn.
  repeat split; [exact Hpreimage].
Qed.

(** X11: a header that names the scheme but carries no colon after a
    non-empty macaroon, or a macaroon that does not parse, is answered with
    401 [{error: 'Invalid L402 token'}]; nothing else happens: no call to
    the node, no log line, and [next] is not invoked. *)
Theorem malformed_credential_is_rejected
    (config : L402MiddlewareConfig) (req : Request) (res : ServerResponse) (w : World)
    (authHeader : string) :
  authorization req = Some authHeader ->
  l402_scheme (Some authHeader) = true ->
  colon_of authHeader <= 0 \/ parseServiceMacaroon (macaroon_of authHeader) = None ->
  l402_handler config req res w = (Return (req, unauthorized res), w).
Proof.
  intros Hauth Hscheme Hbad.
  rewrite (credential_verdict config req res w _ Hauth Hscheme).
  destruct Hbad as [Hcolon | Hparse].
  - destruct (colon_of authHeader >? 0) eqn:Hgt; [| reflexivity].
    apply Z.gtb_gt in Hgt. lia.
  - rewrite Hparse. destruct (colon_of authHeader >? 0); reflexivity.
Qed.

(** X12: a request that presents an L402 credential is settled without
    the node: no call is made, nothing is logged, the environment is not
    touched, and the configuration (price, node, description) plays no
    part.  Either the request reaches [next] with the response untouched,
    or it is answered with the 401 and the world is as it was. *)
Theorem credential_check_is_offline
    (config : L402MiddlewareConfig) (req : Request) (res : ServerResponse) (w : World) :
  l402_scheme (authorization req) = true ->
  (forall config', l402_handler config' req res w = l402_handler config req res w) /\
  exists req' res' w',
    l402_handler config req res w = (Return (req', res'), w') /\
    calls w' = calls w /\ net w' = net w /\
    console_error w' = console_error w /\ tls_env w' = tls_env w /\
    ((res' = res /\ next_calls w' = (next_calls w ++ [req'])%list) \/
     (req' = req /\ res' = unauthorized res /\ w' = w)).
Proof.
  intros Hscheme.
  destruct (authorization req) as [authHeader |] eqn:Hauth; [| discriminate].
  split.
  - intros config'. rewrite !(credential_verdict _ req res w _ Hauth Hscheme). reflexivity.
  - rewrite (credential_verdict config req res w _ Hauth Hscheme).
    destruct (if colon_of authHeader >? 0 then _ else None) as [[| | | | | | fields] |];
      try (eexists _, _, _; split; [reflexivity |]; repeat split; right; repeat split).
    destruct (verifyPreimage _ _).
    + eexists _, _, _. split; [reflexivity |]. repeat split. left. split; reflexivity.
    + eexists _, _, _. split; [reflexivity |]. repeat split. right. repeat split.
Qed.

End Verdicts.

(** ** Further properties: the challenge *)

Section Challenges.
Context `{Platform} `{Network}.

Lemma no_credential_challenges (config : L402MiddlewareConfig) (req : Request)
    (res : ServerResponse) (w : World) :
  l402_scheme (authorization req) = false ->
  l402_handler config req res w = issue_challenge config req res w.
Proof.
  intros Hscheme. unfold l402_handler.
  destruct (authorization req) as [authHeader |]; [| reflexivity].
  unfold l402_scheme in Hscheme. rewrite Hscheme. reflexivity.
Qed.

(** The [try] block, from the price and the answer of the node. *)
Lemma challenge_attempt_run (config : L402MiddlewareConfig) (req : Request)
    (res : ServerResponse) (w : World) (amount : number)
    (out : Result Response) (n : Net) :
  price_of config req = Return amount ->
  respond (net w) (invoice_call config amount (memo_of config req) w) = (out, n) ->
  challenge_attempt config req res w =
    (match (match out with
            | Throw e => Throw e
            | Return r => if ok r then json r
                          else Throw (Error ("LND invoice creation failed: " ++ http_failure r))
            end) with
     | Throw e => Throw e
     | Return invoice =>
         match JS.get invoice "r_hash" with
         | Throw e => Throw e
         | Return r_hash =>
             match JS.Buffer_from_base64 r_hash with
             | Throw e => Throw e
             | Return octets =>
                 match JS.get invoice "payment_request" with
                 | Throw e => Throw e
                 | Return payment_request =>
                     Return (req, challenge_response res
                                    (issued_macaroon (Hex.encode octets) (path req) (clock w))
                                    payment_request amount (memo_of config req))
                 end
             end
         end
     end, after_call w (invoice_call config amount (memo_of config req) w) n).
Proof.
  intros Hprice Hanswer. unfold challenge_attempt. fold (memo_of config req).
  set (priced := match priceFn config with Some f => lift (f req) | None => ret _ end).
  assert (Hpriced : priced w = (Return amount, w)).
  { subst priced. unfold price_of in Hprice.
    destruct (priceFn config); unfold lift, ret; congruence. }
  rewrite (bind_Return _ _ _ _ _ Hpriced). clear Hpriced priced.
  pose proof (createInvoice_run config amount (memo_of config req) w out n Hanswer) as Hrun.
  destruct (match out with Throw e => Throw e | Return r => _ end) as [invoice | e].
  - rewrite (bind_Return _ _ _ _ _ Hrun), bind_lift.
    destruct (JS.get invoice "r_hash") as [r_hash | e]; [| reflexivity].
    rewrite bind_lift.
    destruct (JS.Buffer_from_base64 r_hash) as [octets | e]; [| reflexivity].
    unfold bind at 1. unfold createServiceMacaroon, bind, Date_now, ret. cbn beta iota.
    unfold lift.
    destruct (JS.get invoice "payment_request") as [payment_request | e]; reflexivity.
  - rewrite (bind_Throw _ _ _ _ _ Hrun). reflexivity.
Qed.

Lemma challenge_attempt_unpriced (config : L402MiddlewareConfig) (req : Request)
    (res : ServerResponse) (w : World) (e : exn) :
  price_of config req = Throw e ->
  challenge_attempt config req res w = (Throw e, w).
Proof.
  intros Hprice. unfold challenge_attempt.
  set (priced := match priceFn config with Some f => lift (f req) | None => ret _ end).
  assert (Hpriced : priced w = (Throw e, w)).
  { subst priced. unfold price_of in Hprice.
    destruct (priceFn config); unfold lift, ret; congruence. }
  rewrite (bind_Throw _ _ _ _ _ Hpriced). reflexivity.
Qed.

(** X13: a request without credential, priced at [amount], for which the
    node creates an invoice, draws exactly one call, [POST /v1/invoices]
    with the price and the memo, and is answered with status 402.  The
    header and the body carry the same macaroon and the same invoice; the
    macaroon is issued for the hexadecimal rendering of the invoice's
    [r_hash], the path of the request and the time of the clock; the body
    states the price that was computed. *)
Theorem challenge_binds_invoice_and_route
    (config : L402MiddlewareConfig) (req : Request) (res : ServerResponse) (w : World)
    (amount : number) (r : Response) (n : Net) (invoice payment_request : Value)
    (r_hash : string) :
  l402_scheme (authorization req) = false ->
  price_of config req = Return amount ->
  respond (net w) (invoice_call config amount (memo_of config req) w) = (Return r, n) ->
  ok r = true ->
  json r = Return invoice ->
  JS.get invoice "r_hash" = Return (VStr r_hash) ->
  JS.get invoice "payment_request" = Return payment_request ->
  exists res' body,
    l402_handler config req res w
      = (Return (req, res'),
         after_call w (invoice_call config amount (memo_of config req) w) n) /\
    statusCode res' = 402 /\
    res_headers res' !! "WWW-Authenticate"
      = Some (www_authenticate
                (issued_macaroon (Hex.encode (base64_decode r_hash)) (path req) (clock w))
                payment_request) /\
    res_body res' = Some (VObj body) /\
    JS.lookup "macaroon" body
      = VStr (issued_macaroon (Hex.encode (base64_decode r_hash)) (path req) (clock w)) /\
    JS.lookup "invoice" body = payment_request /\
    JS.lookup "price" body = VNum amount /\
    JS.lookup "description" body = VStr (memo_of config req).
Proof.
  intros Hscheme Hprice Hanswer Hok Hjson Hhash Hrequest.
  rewrite (no_credential_challenges _ _ _ _ Hscheme).
  unfold issue_challenge, try_catch.
  rewrite (challenge_attempt_run _ _ _ _ _ _ _ Hprice Hanswer), Hok, Hjson, Hhash.
  cbn [JS.Buffer_from_base64]. rewrite Hrequest.
  eexists _, _. split; [reflexivity |].
  split; [reflexivity |]. split; [apply lookup_insert_eq |].
  split; [reflexivity |]. repeat split; reflexivity.
Qed.

(** X14: when the node cannot be reached, or answers the invoice request
    with a failure status, the middleware answers 500 with the fixed body
    [{error: 'Payment gateway error'}]; the reason goes to [console.error]
    and not to the caller, and [next] is not invoked. *)
Theorem invoice_refusal_gives_500
    (config : L402MiddlewareConfig) (req : Request) (res : ServerResponse) (w : World)
    (amount : number) (out : Result Response) (n : Net) (e : exn) :
  l402_scheme (authorization req) = false ->
  price_of config req = Return amount ->
  respond (net w) (invoice_call config amount (memo_of config req) w) = (out, n) ->
  (out = Throw e \/
   exists r, out = Return r /\ ok r = false /\
             e = Error ("LND invoice creation failed: " ++ http_failure r)) ->
  l402_handler config req res w
    = (Return (req, gateway_error res),
       logged ("L402 middleware error: " ++ message e)
         (after_call w (invoice_call config amount (memo_of config req) w) n)).
Proof.
  intros Hscheme Hprice Hanswer Hrefusal.
  rewrite (no_credential_challenges _ _ _ _ Hscheme).
  unfold issue_challenge, try_catch.
  rewrite (challenge_attempt_run _ _ _ _ _ _ _ Hprice Hanswer).
  destruct Hrefusal as [-> | (r & -> & Hok & ->)]; [| rewrite Hok]; reflexivity.
Qed.


(** X16: an answer of the node that is a success but carries no [r_hash]
    does not give a challenge: [Buffer.from(undefined, 'base64')] throws,
    and the request is answered with the 500. *)
Theorem answer_without_hash_gives_500
    (config : L402MiddlewareConfig) (req : Request) (res : ServerResponse) (w : World)
    (amount : number) (r : Response) (n : Net) (invoice : Value) :
  l402_scheme (authorization req) = false ->
  price_of config req = Return amount ->
  respond (net w) (invoice_call config amount (memo_of config req) w) = (Return r, n) ->
  ok r = true ->
  json r = Return invoice ->
  JS.get invoice "r_hash" = Return VUndefined ->
  exists reason,
    l402_handler config req res w
      = (Return (req, gateway_error res),
         logged ("L402 middleware error: " ++ reason)
           (after_call w (invoice_call config amount (memo_of config req) w) n)).
Proof.
  intros Hscheme Hprice Hanswer Hok Hjson Hhash.
  rewrite (no_credential_challenges _ _ _ _ Hscheme).
  unfold issue_challenge, try_catch.
  rewrite (challenge_attempt_run _ _ _ _ _ _ _ Hprice Hanswer), Hok, Hjson, Hhash.
  eexists. reflexivity.
Qed.

(** X17: the footprint of the handler.  Whatever the request, handling it
    leaves the environment variable alone and makes at most one call, the
    invoice request to the configured node, seen with the environment as it
    is; only building the middleware writes the variable, and only when
    [skipTlsVerify] is set. *)
Theorem handler_footprint
    (config : L402MiddlewareConfig) (req : Request) (res : ServerResponse) (w : World) :
  tls_env (snd (l402_handler config req res w)) = tls_env w /\
  (calls (snd (l402_handler config req res w)) = calls w \/
   exists amount,
     price_of config req = Return amount /\
     calls (snd (l402_handler config req res w))
       = (calls w ++ [invoice_call config amount (memo_of config req) w])%list) /\
  tls_env (snd (l402 config w))
    = (if enabled (skipTlsVerify (node config)) then Some "0" else tls_env w).
Proof.
  split; [| split].
  3: { unfold l402, bind. destruct (enabled _); reflexivity. }
  all: destruct (l402_scheme (authorization req)) eqn:Hscheme.
  all: try (destruct (authorization req) as [authHeader |] eqn:Hauth; [| discriminate];
            rewrite (credential_verdict config req res w _ Hauth Hscheme);
            destruct (if colon_of authHeader >? 0 then _ else None) as [[| | | | | | fields] |];
            try destruct (verifyPreimage _ _); auto; fail).
  all: rewrite (no_credential_challenges _ _ _ _ Hscheme);
       unfold issue_challenge, try_catch;
       destruct (price_of config req) as [amount | e] eqn:Hprice;
       [ destruct (respond (net w) (invoice_call config amount (memo_of config req) w))
           as [out n] eqn:Hanswer;
         rewrite (challenge_attempt_run _ _ _ _ _ _ _ Hprice Hanswer)
       | rewrite (challenge_attempt_unpriced _ _ _ _ _ Hprice) ].
  - destruct (match (match out with Throw _ => _ | Return _ => _ end) with
              | Throw e => Throw e | Return _ => _ end) as [[req' res'] | e]; reflexivity.
  - reflexivity.
  - right. exists amount. split; [reflexivity |].
    destruct (match (match out with Throw _ => _ | Return _ => _ end) with
              | Throw e => Throw e | Return _ => _ end) as [[req' res'] | e]; reflexivity.
  - left. reflexivity.
Qed.

End Challenges.

(** ** Further properties: the client, call by call *)

Section Traces.
Context `{Platform} `{Network}.

Lemma first_call_run (url : string) (options : RequestInit) (w : World)
    (out : Result Response) (n : Net) :
  respond (net w) (target_call url options (initial_headers (tokenCache w) url options) w)
    = (out, n) ->
  fetch url (with_headers options (initial_headers (tokenCache w) url options)) w
    = (out, after_call w
              (target_call url options (initial_headers (tokenCache w) url options) w) n).
Proof. apply fetch_run. Qed.

(** X18: an answer whose status is not 402, be it a success or an error
    such as 401 or 500, is handed back as data with [paid: false]: one call
    is made, nothing is paid, and the cache is not written. *)
Theorem other_status_is_returned_unpaid
    (config : L402ClientConfig) (url : string) (options : RequestInit) (w : World)
    (res : Response) (n : Net) :
  respond (net w) (target_call url options (initial_headers (tokenCache w) url options) w)
    = (Return res, n) ->
  status res <> 402 ->
  l402Fetch config url options w =
    (match json res with
     | Return d => Return {| data := d; result_paid := false;
                             result_price := VUndefined; result_preimage := None |}
     | Throw e => Throw e
     end,
     after_call w
       (target_call url options (initial_headers (tokenCache w) url options) w) n).
Proof.
  intros Hanswer Hstatus. apply first_call_run in Hanswer.
  unfold l402Fetch. unfold bind at 1. unfold cache_get. cbn beta iota.
  fold (initial_headers (tokenCache w) url options).
  rewrite (bind_Return _ _ _ _ _ Hanswer).
  apply Z.eqb_neq in Hstatus. rewrite Hstatus. cbn [negb].
  rewrite bind_lift. destruct (json res); reflexivity.
Qed.

(** X19: a paid run, call by call.  A 402 whose stated price is within the
    ceiling, a settlement that succeeds without [payment_error], and an
    answer to the repeated request make exactly three calls: the target,
    with the caller's method and body and the headers of the first attempt;
    the settlement at the node (the only call that sees the TLS check
    switched off, and only under [skipTlsVerify]); and the target again,
    with the same method and body and those headers with [Authorization] set
    to the credential.  The cache is the old one with the credential stored
    under the target. *)
Theorem paid_run_makes_three_calls
    (config : L402ClientConfig) (url : string) (options : RequestInit) (w : World)
    (res paid authed : Response) (n1 n2 n3 : Net)
    (challenge price invoice mac payment reason encoded d : Value) (octets : list Z) :
  let hs := initial_headers (tokenCache w) url options in
  let c1 := {| call_url := url;
               call_init := {| method := method options; headers := hs;
                               body := body options |};
               call_tls := tls_env w |} in
  let c2 := settlement_call config invoice w in
  let c3 := {| call_url := url;
               call_init := {| method := method options;
                               headers := <["Authorization" := credential mac octets]> hs;
                               body := body options |};
               call_tls := tls_env w |} in
  respond (net w) c1 = (Return res, n1) ->
  status res = 402 ->
  json res = Return challenge ->
  JS.get challenge "price" = Return price ->
  JS.gt (JS.ToNumber price) (ceiling config) = false ->
  JS.get challenge "invoice" = Return invoice ->
  JS.get challenge "macaroon" = Return mac ->
  respond n1 c2 = (Return paid, n2) ->
  ok paid = true ->
  json paid = Return payment ->
  JS.get payment "payment_error" = Return reason ->
  JS.truthy reason = false ->
  JS.get payment "payment_preimage" = Return encoded ->
  JS.Buffer_from_base64 encoded = Return octets ->
  respond n2 c3 = (Return authed, n3) ->
  json authed = Return d ->
  exists w3,
    l402Fetch config url options w =
      (Return {| data := d; result_paid := true; result_price := price;
                 result_preimage := Some (Hex.encode octets) |}, w3) /\
    calls w3 = (calls w ++ [c1; c2; c3])%list /\
    headers (call_init c3) !! "Authorization" = Some (credential mac octets) /\
    (forall name, name <> "Authorization" ->
       headers (call_init c3) !! name = headers (call_init c1) !! name) /\
    tokenCache w3 = <[url := credential mac octets]> (tokenCache w) /\
    tls_env w3 = tls_env w /\
    net w3 = n3.
Proof.
  intros hs c1 c2 c3 Hfirst Hstatus Hjson Hprice Hgt Hinvoice Hmac Hsettle Hok Hpaid
    Hreason Hfalsy Hencoded Hoctets Hretry Hbody.
  apply first_call_run in Hfirst.
  rewrite (l402Fetch_pays _ _ _ _ _ _ _ _ _ Hfirst Hstatus Hjson Hprice Hgt Hinvoice).
  pose proof (payInvoice_run config invoice (after_call w c1 n1) (Return paid) n2 Hsettle)
    as Hpay.
  cbv beta iota in Hpay. rewrite Hok, Hpaid in Hpay.
  rewrite (bind_Return _ _ _ _ _ Hpay).
  rewrite bind_lift, Hreason, Hfalsy, bind_lift, Hencoded, bind_lift, Hoctets,
    bind_lift, Hmac.
  fold (credential mac octets). fold hs.
  set (w2 := after_call (after_call w c1 n1) (settlement_call config invoice (after_call w c1 n1)) n2).
  rewrite (bind_Return _ _ _ (cached url (credential mac octets) w2) tt) by reflexivity.
  assert (Hthird : fetch url
            (with_headers options (<["Authorization" := credential mac octets]> hs))
            (cached url (credential mac octets) w2)
          = (Return authed, after_call (cached url (credential mac octets) w2) c3 n3)).
  { apply fetch_run. exact Hretry. }
  rewrite (bind_Return _ _ _ _ _ Hthird), bind_lift, Hbody.
  eexists. split; [reflexivity |].
  split; [cbn; rewrite <- !app_assoc; reflexivity |].
  split; [apply lookup_insert_eq |].
  split; [intros name Hname; apply lookup_insert_ne; congruence |].
  repeat split; reflexivity.
Qed.

(** X20: the ceiling guards the price the challenge states, and nothing
    else.  Whenever the comparison [challenge.price > maxAutoPaySats] is
    false, which it also is for a challenge without [price] and for one whose
    price is not a number, the second call of the run is the settlement of the
    challenge's invoice, sent to the node as it came. *)
Theorem stated_price_within_ceiling_is_paid
    (config : L402ClientConfig) (url : string) (options : RequestInit) (w : World)
    (res : Response) (n1 : Net) (challenge price invoice : Value) :
  respond (net w) (target_call url options (initial_headers (tokenCache w) url options) w)
    = (Return res, n1) ->
  status res = 402 ->
  json res = Return challenge ->
  JS.get challenge "price" = Return price ->
  JS.gt (JS.ToNumber price) (ceiling config) = false ->
  JS.get challenge "invoice" = Return invoice ->
  exists rest,
    calls (snd (l402Fetch config url options w)) =
      (calls w ++
       target_call url options (initial_headers (tokenCache w) url options) w ::
       settlement_call config invoice w :: rest)%list.
Proof.
  intros Hfirst Hstatus Hjson Hprice Hgt Hinvoice.
  apply first_call_run in Hfirst.
  rewrite (l402Fetch_pays _ _ _ _ _ _ _ _ _ Hfirst Hstatus Hjson Hprice Hgt Hinvoice).
  set (c1 := target_call url options (initial_headers (tokenCache w) url options) w).
  destruct (respond n1 (settlement_call config invoice (after_call w c1 n1)))
    as [out n2] eqn:Hsettle.
  pose proof (payInvoice_run config invoice (after_call w c1 n1) out n2 Hsettle) as Hpay.
  assert (Hdone : forall {A} (r : Result A),
             exists rest,
               calls (snd (r, after_call (after_call w c1 n1)
                                (settlement_call config invoice (after_call w c1 n1)) n2))
               = (calls w ++ c1 :: settlement_call config invoice w :: rest)%list).
  { intros A r. exists []. cbn. rewrite <- app_assoc. reflexivity. }
  destruct (match out with Throw e => Throw e | Return r => _ end) as [payment | e].
  2: { rewrite (bind_Throw _ _ _ _ _ Hpay). apply Hdone. }
  rewrite (bind_Return _ _ _ _ _ Hpay), bind_lift.
  destruct (JS.get payment "payment_error") as [reason |]; [| apply Hdone].
  destruct (JS.truthy reason); [apply Hdone |].
  rewrite bind_lift.
  destruct (JS.get payment "payment_preimage") as [encoded |]; [| apply Hdone].
  rewrite bind_lift.
  destruct (JS.Buffer_from_base64 encoded) as [octets |]; [| apply Hdone].
  rewrite bind_lift.
  destruct (JS.get challenge "macaroon") as [mac |]; [| apply Hdone].
  unfold bind at 1. unfold cache_set at 1. cbn beta iota.
  unfold bind at 1.
  match goal with
  | |- context [fetch ?u ?i ?w0] =>
      destruct (fetch u i w0) as [[authed | e] w3] eqn:Hretry
  end;
    apply fetch_frame in Hretry as (Hcalls & _); cbn in Hcalls.
  - rewrite bind_lift.
    destruct (json authed); unfold ret; cbn [snd]; rewrite Hcalls, <- !app_assoc;
      eexists; reflexivity.
  - cbn [snd]. rewrite Hcalls, <- !app_assoc. eexists. reflexivity.
Qed.

(** X21: a settlement that the node answers with a populated
    [payment_error] makes [l402Fetch] throw an error that quotes it; the run
    ends after the two calls, with no repeated request and the cache as it
    was. *)
Theorem reported_payment_error_is_thrown
    (config : L402ClientConfig) (url : string) (options : RequestInit) (w : World)
    (res paid : Response) (n1 n2 : Net) (challenge price invoice payment reason : Value) :
  let c1 := target_call url options (initial_headers (tokenCache w) url options) w in
  respond (net w) c1 = (Return res, n1) ->
  status res = 402 ->
  json res = Return challenge ->
  JS.get challenge "price" = Return price ->
  JS.gt (JS.ToNumber price) (ceiling config) = false ->
  JS.get challenge "invoice" = Return invoice ->
  respond n1 (settlement_call config invoice w) = (Return paid, n2) ->
  ok paid = true ->
  json paid = Return payment ->
  JS.get payment "payment_error" = Return reason ->
  JS.truthy reason = true ->
  l402Fetch config url options w =
    (Throw (Error ("Lightning payment failed: " ++ JS.ToString reason)),
     after_call (after_call w c1 n1) (settlement_call config invoice w) n2).
Proof.
  intros c1 Hfirst Hstatus Hjson Hprice Hgt Hinvoice Hsettle Hok Hpaid Hreason Htruthy.
  apply first_call_run in Hfirst.
  rewrite (l402Fetch_pays _ _ _ _ _ _ _ _ _ Hfirst Hstatus Hjson Hprice Hgt Hinvoice).
  pose proof (payInvoice_run config invoice (after_call w c1 n1) (Return paid) n2 Hsettle)
    as Hpay.
  cbv beta iota in Hpay. rewrite Hok, Hpaid in Hpay.
  rewrite (bind_Return _ _ _ _ _ Hpay), bind_lift, Hreason, Htruthy. reflexivity.
Qed.

Lemma l402Fetch_cache (config : L402ClientConfig) (url : string) (options : RequestInit)
    (w w' : World) (r : Result L402FetchResult) :
  l402Fetch config url options w = (r, w') ->
  tokenCache w' = tokenCache w \/
  exists mac pre, tokenCache w' = <[url := "L402 " ++ mac ++ ":" ++ pre]> (tokenCache w).
Proof.
  unfold l402Fetch. unfold bind at 1. unfold cache_get. cbn beta iota.
  unfold bind at 1.
  destruct (fetch url _ w) as [[res | e] w1] eqn:Hfirst;
    apply fetch_frame in Hfirst as (_ & Hcache1 & _);
    [| intros [= <- <-]; left; exact Hcache1].
  destruct (negb (status res =? 402)).
  { rewrite bind_lift. destruct (json res); intros [= <- <-]; left; exact Hcache1. }
  rewrite bind_lift.
  destruct (json res) as [challenge |]; [| intros [= <- <-]; left; exact Hcache1].
  rewrite bind_lift.
  destruct (JS.get challenge "price") as [price |]; [| intros [= <- <-]; left; exact Hcache1].
  destruct (JS.gt _ _); [intros [= <- <-]; left; exact Hcache1 |].
  rewrite bind_lift.
  destruct (JS.get challenge "invoice") as [invoice |];
    [| intros [= <- <-]; left; exact Hcache1].
  unfold bind at 1.
  destruct (payInvoice _ _ invoice _ w1) as [[payment | e] w2] eqn:Hpay;
    apply payInvoice_frame in Hpay as (Hcache2 & _);
    [| intros [= <- <-]; left; congruence].
  assert (Hcache : tokenCache w2 = tokenCache w) by congruence.
  rewrite bind_lift.
  destruct (JS.get payment "payment_error") as [reason |];
    [| intros [= <- <-]; left; exact Hcache].
  destruct (JS.truthy reason); [intros [= <- <-]; left; exact Hcache |].
  rewrite bind_lift.
  destruct (JS.get payment "payment_preimage") as [encoded |];
    [| intros [= <- <-]; left; exact Hcache].
  rewrite bind_lift.
  destruct (JS.Buffer_from_base64 encoded) as [octets |];
    [| intros [= <- <-]; left; exact Hcache].
  rewrite bind_lift.
  destruct (JS.get challenge "macaroon") as [mac |];
    [| intros [= <- <-]; left; exact Hcache].
  unfold bind at 1. unfold cache_set at 1. cbn beta iota.
  unfold bind at 1.
  match goal with
  | |- context [fetch ?u ?i ?w0] =>
      destruct (fetch u i w0) as [[authed | e] w3] eqn:Hretry
  end;
    apply fetch_frame in Hretry as (_ & Hcache3 & _); cbn in Hcache3.
  - rewrite bind_lift.
    destruct (json authed); unfold ret; intros [= <- <-];
      right; exists (JS.ToString mac), (Hex.encode octets); rewrite Hcache3, Hcache;
      reflexivity.
  - intros [= <- <-]. right. exists (JS.ToString mac), (Hex.encode octets).
    rewrite Hcache3, Hcache. reflexivity.
Qed.

(** X22: the cache is keyed by the target.  Whatever a run of [l402Fetch]
    for [url] meets, the entries of all other targets are as before, and the
    cache grows by one entry at most. *)
Theorem l402Fetch_writes_only_its_target
    (config : L402ClientConfig) (url : string) (options : RequestInit) (w : World)
    (other : string) :
  other <> url ->
  tokenCache (snd (l402Fetch config url options w)) !! other = tokenCache w !! other /\
  (size (tokenCache w) <= size (tokenCache (snd (l402Fetch config url options w)))
                       <= S (size (tokenCache w)))%nat.
Proof.
  intros Hother.
  destruct (l402Fetch config url options w) as [r w'] eqn:Hrun.
  cbn [snd]. apply l402Fetch_cache in Hrun as [-> | (mac & pre & ->)].
  - split; [reflexivity | lia].
  - split; [apply lookup_insert_ne; congruence |].
    destruct (tokenCache w !! url) eqn:Hold.
    + rewrite map_size_insert_Some by eauto. lia.
    + rewrite map_size_insert_None by assumption. lia.
Qed.

End Traces.

(** ** Further properties: the protocol end to end *)

Section Protocol.
Context `{Platform} `{Network}.

(** X23: a challenge can be redeemed, and not only where it was issued.
    Take the macaroon the middleware issues for a request to [route], upon
    an invoice whose hash is the SHA-256 digest of [octets]; let the client
    build its credential from that macaroon and from [octets], the preimage
    its node returned.  Every L402 middleware, whatever its configuration,
    accepts that credential on every request, whatever its path: [next] is
    handed the request with its [l402] member set to a proof whose
    [service] is [route], and nothing compares it with the path of the
    request.  The platform's codecs are assumed to read back the macaroon
    they wrote. *)
Theorem issued_credential_opens_any_route
    (config : L402MiddlewareConfig) (req : Request) (res : ServerResponse) (w : World)
    (route : string) (issuedAt : Z) (octets : list Z) :
  let hash := Hex.encode (Sha256.digest octets) in
  let mac := issued_macaroon hash route issuedAt in
  let req' := {| authorization := authorization req; req_method := req_method req;
                 path := path req; req_body := req_body req;
                 l402_proof := Some {| paid := true; preimage := Hex.encode octets;
                                       paymentHash := VStr hash;
                                       service := VStr route |} |} in
  Forall octet octets ->
  mac <> EmptyString ->
  JSON_parse (JS.text (base64_decode mac)) = Return (macaroon_value hash route issuedAt) ->
  authorization req = Some (credential (VStr mac) octets) ->
  exists w',
    l402_handler config req res w = (Return (req', res), w') /\
    next_calls w' = (next_calls w ++ [req'])%list /\
    calls w' = calls w.
Proof.
  intros hash mac req' Hoctets Hmac Hcodec Hauth.
  assert (Hhash : hash = Hex.encode (Sha256.digest octets)) by reflexivity.
  assert (Hne : String.eqb hash "" = false).
  { apply String.eqb_neq. intros Hempty.
    apply (f_equal String.length) in Hempty.
    rewrite Hhash, encode_length, digest_length in Hempty. discriminate Hempty. }
  assert (Hverify : verifyPreimage (Hex.encode octets) (VStr hash) = true).
  { unfold verifyPreimage, JS.strict_equal_string.
    rewrite (decode_encode _ Hoctets), Hhash. apply String.eqb_refl. }
  clearbody hash. clearbody mac.
  assert (Hparts := credential_parts "L402 " mac (Hex.encode octets) eq_refl
                      (encode_has_no_colon _ Hoctets)).
  change ("L402 " ++ mac ++ ":" ++ Hex.encode octets)
    with (credential (VStr mac) octets) in Hparts.
  destruct Hparts as (_ & Hcolon & Hmacaroon & Hpreimage).
  assert (Hparse : parseServiceMacaroon mac = Some (macaroon_value hash route issuedAt)).
  { unfold parseServiceMacaroon. rewrite Hcodec. cbn. rewrite Hne. reflexivity. }
  rewrite (credential_verdict config req res w _ Hauth (scheme_named "L402 " _ eq_refl)).
  rewrite Hcolon, Hmacaroon, Hpreimage.
  replace (Z.of_nat (String.length mac) >? 0) with true
    by (symmetry; apply Z.gtb_gt; destruct mac; [contradiction | cbn; lia]).
  rewrite Hparse. unfold macaroon_value. cbn [JS.lookup String.eqb Ascii.eqb Bool.eqb].
  rewrite Hverify.
  unfold proof_of, attach, handed_on. rewrite Hpreimage.
  eexists. split; [reflexivity |]. split; reflexivity.
Qed.

Lemma paid_run_inserts (config : L402ClientConfig) (url : string) (options : RequestInit)
    (w w' : World) (r : L402FetchResult) :
  l402Fetch config url options w = (Return r, w') ->
  result_paid r = true ->
  size (tokenCache w') =
    match tokenCache w !! url with
    | Some _ => size (tokenCache w)
    | None => S (size (tokenCache w))
    end.
Proof.
  intros Hrun Hpaid.
  destruct (paid_run_caches _ _ _ _ _ _ Hrun Hpaid) as (mac & pre & _ & Hstored).
  apply l402Fetch_cache in Hrun as [Hsame | (mac' & pre' & Hinsert)].
  - rewrite Hsame in *. rewrite Hstored. reflexivity.
  - rewrite Hinsert. destruct (tokenCache w !! url) eqn:Hold.
    + apply map_size_insert_Some. eauto.
    + apply map_size_insert_None. assumption.
Qed.

(** X24: the client object.  A client that has just been made reports a
    cache size of 0; after a first fetch that paid it reports 1, and after
    [clearCache] it reports 0 again. *)
Theorem fresh_client_counts_its_paid_target
    (config : L402ClientConfig) (w0 w w' : World) (client : L402Client)
    (url : string) (options : RequestInit) (r : L402FetchResult) :
  createL402Client config w0 = (Return client, w) ->
  client_fetch client url options w = (Return r, w') ->
  result_paid r = true ->
  cacheSize client w = (Return 0%nat, w) /\
  cacheSize client w' = (Return 1%nat, w') /\
  fst (cacheSize client (snd (clearCache client w'))) = Return 0%nat.
Proof.
  unfold createL402Client, bind, cache_clear, ret. intros [= <- <-]. cbn.
  intros Hrun Hpaid.
  pose proof (paid_run_inserts _ _ _ _ _ _ Hrun Hpaid) as Hsize. cbn in Hsize.
  rewrite lookup_empty, map_size_empty in Hsize.
  rewrite Hsize, map_size_empty. repeat split; reflexivity.
Qed.

End Protocol.

(** ** The further properties on the scenarios *)

Import Cases.

Lemma octets_checked (bs : list Z) :
  List.forallb (fun b => (0 <=? b) && (b <? 256)) bs = true -> Forall octet bs.
Proof.
  rewrite List.forallb_forall. intros Hall. apply Lists.List.Forall_forall.
  intros b Hin. specialize (Hall b Hin). unfold octet. lia.
Qed.

(** X3, witness: "is case-insensitive for the L402 prefix". *)
Lemma lower_case_prefix_witness :
  l402_scheme (Some lower_case_credential) = true /\
  macaroon_of lower_case_credential = MACAROON_B64 /\
  preimage_of lower_case_credential = PREIMAGE_HEX.
Proof.
  destruct (credential_splits "l402 " MACAROON_B64 PREIMAGE_HEX)
    as (Hscheme & _ & Hmacaroon & Hpreimage);
    [ reflexivity | vm_compute; discriminate | vm_compute; reflexivity | ].
  split; [exact Hscheme |]. split; [exact Hmacaroon | exact Hpreimage].
Defined.

(** X4, witness: the preimage of the tests, written in upper case. *)
Lemma preimage_case_witness : verifyPreimage PREIMAGE_UPPER (VStr PAYMENT_HASH) = true.
Proof.
  rewrite (preimage_case_is_ignored PREIMAGE_UPPER PREIMAGE_HEX (VStr PAYMENT_HASH));
    vm_compute; reflexivity.
Defined.

(** X5, witness: the preimage of the tests, followed by [zz]. *)
Lemma text_after_preimage_witness :
  verifyPreimage preimage_with_tail (VStr PAYMENT_HASH) = true.
Proof.
  change preimage_with_tail with (Hex.encode (Hex.decode PREIMAGE_HEX) ++ "zz").
  rewrite (text_after_preimage_is_ignored (Hex.decode PREIMAGE_HEX) "zz" (VStr PAYMENT_HASH));
    [ vm_compute; reflexivity
    | apply octets_checked; vm_compute; reflexivity
    | reflexivity ].
Defined.

(** X6, witness: the payment hash of the tests. *)
Lemma verified_hash_witness :
  exists hash, VStr PAYMENT_HASH = VStr hash /\ String.length hash = 64%nat.
Proof.
  destruct (verified_hash_shape PREIMAGE_HEX (VStr PAYMENT_HASH))
    as (hash & Hhash & Hlength & _); [vm_compute; reflexivity |].
  exists hash. split; [exact Hhash | exact Hlength].
Defined.

(** X9, witness: "produces a macaroon that can be verified with the
    correct preimage", on the [Node] codecs. *)
Lemma issued_macaroon_witness :
  parseServiceMacaroon (issued_macaroon PAYMENT_HASH "/api/test" 1700000000000)
  = Some macaroon_data.
Proof.
  destruct (issued_macaroon_reads_back PAYMENT_HASH "/api/test" (start []))
    as [_ Hparse]; [vm_compute; reflexivity |].
  exact Hparse.
Defined.

(** X10, witness: the credential the client builds in "detects 402, pays
    invoice, and retries with L402 token" passes "calls next() with valid
    preimage". *)
Lemma client_credential_witness :
  exists proof req',
    fst (l402_handler price_100 (mockReq (Some valid_credential)) mockRes (start []))
      = Return (req', mockRes) /\
    l402_proof req' = Some proof /\
    authorization req' = Some valid_credential /\
    preimage proof = PREIMAGE_HEX /\
    paymentHash proof = VStr PAYMENT_HASH.
Proof.
  destruct (client_credential_is_accepted price_100 (mockReq (Some valid_credential))
              mockRes (start []) MACAROON_B64 (Hex.decode PREIMAGE_HEX)
              [ ("version", VNum (Int 1)); ("paymentHash", VStr PAYMENT_HASH);
                ("service", VStr "/api/test"); ("issuedAt", VNum (Int 1700000000000)) ])
    as (proof & req' & w' & Hrun & _ & Hreq & Hproof & _ & Hpreimage & Hhash).
  - vm_compute. reflexivity.
  - vm_compute. discriminate.
  - apply octets_checked. vm_compute. reflexivity.
  - vm_compute. reflexivity.
  - vm_compute. reflexivity.
  - exists proof, req'. rewrite Hrun. split; [reflexivity |].
    split; [exact Hproof |]. split; [rewrite Hreq; reflexivity |].
    split; [rewrite Hpreimage; vm_compute; reflexivity |].
    rewrite Hhash. vm_compute. reflexivity.
Defined.

(** X11, witness: "returns 401 when token has no colon separator". *)
Lemma malformed_credential_witness :
  l402_handler price_100 (mockReq (Some no_colon)) mockRes (start [])
  = (Return (mockReq (Some no_colon),
             {| statusCode := 401; res_headers := ∅;
                res_body := Some (VObj [("error", VStr "Invalid L402 token")]) |}),
     start []).
Proof.
  rewrite (malformed_credential_is_rejected price_100 (mockReq (Some no_colon)) mockRes
             (start []) no_colon);
    [ reflexivity | reflexivity | reflexivity | left; vm_compute; discriminate ].
Defined.

(** X12, witness: "calls next() with valid preimage" makes no call. *)
Lemma credential_check_witness :
  calls (snd (l402_handler price_100 (mockReq (Some valid_credential)) mockRes (start [])))
  = [].
Proof.
  destruct (credential_check_is_offline price_100 (mockReq (Some valid_credential))
              mockRes (start []))
    as (_ & req' & res' & w' & Hrun & Hcalls & _); [vm_compute; reflexivity |].
  rewrite Hrun. exact Hcalls.
Defined.

(** X13, witness: "returns 402 with invoice and macaroon" and "embeds
    payment hash that matches the invoice". *)
Lemma challenge_witness :
  exists res',
    fst (l402_handler price_100 (mockReq None) mockRes (start [invoice_created]))
      = Return (mockReq None, res') /\
    statusCode res' = 402 /\
    res_headers res' !! "WWW-Authenticate"
      = Some (www_authenticate MACAROON_B64 (VStr "lnbc100n1fake_invoice")).
Proof.
  edestruct (challenge_binds_invoice_and_route price_100 (mockReq None) mockRes
               (start [invoice_created]) (Int 100))
    as (res' & body & Hrun & Hstatus & Hheader & _);
    [ reflexivity | reflexivity | reflexivity | reflexivity | reflexivity
    | reflexivity | reflexivity | ].
  exists res'. rewrite Hrun. split; [reflexivity |]. split; [exact Hstatus |].
  rewrite Hheader. vm_compute. reflexivity.
Defined.

(** X14, witness: "returns 500 when LND returns an error status". *)
Lemma invoice_refusal_witness :
  console_error (snd (l402_handler price_100 (mockReq None) mockRes
                        (start [service_unavailable])))
  = ["L402 middleware error: LND invoice creation failed: 503 Service Unavailable"].
Proof.
  rewrite (invoice_refusal_gives_500 price_100 (mockReq None) mockRes
             (start [service_unavailable]) (Int 100) service_unavailable []
             (Error "LND invoice creation failed: 503 Service Unavailable"));
    [ vm_compute; reflexivity | reflexivity | reflexivity | reflexivity
    | right; eexists; split; [reflexivity |]; split; reflexivity ].
Defined.


(** X16, witness: a node that answers 200 with a payment request only. *)
Lemma answer_without_hash_witness :
  fst (l402_handler price_100 (mockReq None) mockRes (start [invoice_without_hash]))
  = Return (mockReq None, gateway_error mockRes).
Proof.
  edestruct (answer_without_hash_gives_500 price_100 (mockReq None) mockRes
               (start [invoice_without_hash]) (Int 100)) as (reason & Hrun);
    [ reflexivity | reflexivity | reflexivity | reflexivity | reflexivity | reflexivity | ].
  rewrite Hrun. reflexivity.
Defined.

(** X18, witness: "returns data directly without paying". *)
Lemma other_status_witness :
  fst (l402Fetch client_default free_url no_options (start [hello_world]))
  = Return {| data := VObj [("hello", VStr "world")]; result_paid := false;
              result_price := VUndefined; result_preimage := None |}.
Proof.
  erewrite (other_status_is_returned_unpaid client_default free_url no_options
              (start [hello_world])).
  2: reflexivity.
  2: vm_compute; discriminate.
  reflexivity.
Defined.

(** X19, witness: "detects 402, pays invoice, and retries with L402
    token" and "sends payment to the correct LND endpoint". *)
Lemma paid_run_witness :
  exists c1 c2 c3,
    calls (snd first_fetch) = [c1; c2; c3] /\
    List.map call_url [c1; c2; c3]
      = [joke_url; "https://localhost:8082/v1/channels/transactions"; joke_url] /\
    headers (call_init c1) !! "Authorization" = None /\
    headers (call_init c3) !! "Authorization" = Some valid_credential.
Proof.
  edestruct (paid_run_makes_three_calls client_default joke_url no_options
               (start caching_script)) as (w3 & Hrun & Hcalls & Hheader & _);
    [ reflexivity | reflexivity | reflexivity | reflexivity | reflexivity | reflexivity
    | reflexivity | reflexivity | reflexivity | reflexivity | reflexivity | reflexivity
    | reflexivity | vm_compute; reflexivity | vm_compute; reflexivity | reflexivity | ].
  assert (Hsame : l402Fetch client_default joke_url no_options (start caching_script)
                  = first_fetch) by (vm_compute; reflexivity).
  rewrite Hsame in Hrun. rewrite Hrun. cbn [snd]. rewrite Hcalls.
  eexists _, _, _. split; [reflexivity |].
  split; [reflexivity |]. split; [reflexivity |].
  rewrite Hheader. vm_compute. reflexivity.
Defined.

(** X20, witness: a challenge that states no price is paid by a client
    whose ceiling is 0. *)
Lemma stated_price_witness :
  exists rest,
    List.map call_url (calls (snd unpriced_run))
    = test_url :: "https://localhost:8082/v1/channels/transactions" :: List.map call_url rest.
Proof.
  edestruct (stated_price_within_ceiling_is_paid client_0 test_url no_options
               (start [unpriced_challenge; makeLndPaymentResponse; hello_world]))
    as (rest & Hcalls);
    [ reflexivity | reflexivity | reflexivity | reflexivity | reflexivity | reflexivity | ].
  assert (Hsame : l402Fetch client_0 test_url no_options
                    (start [unpriced_challenge; makeLndPaymentResponse; hello_world])
                  = unpriced_run) by (vm_compute; reflexivity).
  rewrite Hsame in Hcalls. exists rest. rewrite Hcalls. reflexivity.
Defined.

(** X21, witness: "throws when LND returns a payment error". *)
Lemma reported_payment_error_witness :
  fst failed_payment = Throw (Error "Lightning payment failed: insufficient_balance").
Proof.
  assert (Hsame : l402Fetch client_default test_url no_options
                    (start [make402Response 100; insufficient_balance])
                  = failed_payment) by (vm_compute; reflexivity).
  rewrite <- Hsame.
  erewrite (reported_payment_error_is_thrown client_default test_url no_options
              (start [make402Response 100; insufficient_balance])).
  2-12: reflexivity.
  reflexivity.
Defined.

(** X22, witness: paying for the joke leaves no entry for another target. *)
Lemma other_target_witness :
  tokenCache (snd (l402Fetch client_default joke_url no_options (start caching_script)))
    !! test_url = None.
Proof.
  destruct (l402Fetch_writes_only_its_target client_default joke_url no_options
              (start caching_script) test_url) as [Hother _];
    [vm_compute; discriminate |].
  rewrite Hother. reflexivity.
Defined.

(** X23, witness: the routes of examples/server.ts.  The credential issued
    at [/api/joke], 10 sats, is accepted at [/api/wisdom], 50 sats. *)
Lemma any_route_witness :
  fst (l402_handler wisdom_config wisdom_request mockRes (start []))
  = Return ({| authorization := authorization wisdom_request;
               req_method := "GET"; path := "/api/wisdom"; req_body := VUndefined;
               l402_proof := Some {| paid := true; preimage := PREIMAGE_HEX;
                                     paymentHash := VStr PAYMENT_HASH;
                                     service := VStr "/api/joke" |} |}, mockRes).
Proof.
  destruct (issued_credential_opens_any_route wisdom_config wisdom_request mockRes (start [])
              "/api/joke" 1700000000000 (Hex.decode PREIMAGE_HEX))
    as (w' & Hrun & _).
  - apply octets_checked. vm_compute. reflexivity.
  - vm_compute. discriminate.
  - vm_compute. reflexivity.
  - vm_compute. reflexivity.
  - rewrite Hrun. vm_compute. reflexivity.
Defined.

(** X24, witness: "tracks cache size correctly". *)
Lemma fresh_client_witness :
  createL402Client client_default (start counting_script)
    = (Return fresh_client, start counting_script) /\
  cacheSize fresh_client (start counting_script) = (Return 0%nat, start counting_script) /\
  cacheSize fresh_client (snd counted_fetch) = (Return 1%nat, snd counted_fetch).
Proof.
  destruct (fresh_client_counts_its_paid_target client_default
              (start counting_script) (start counting_script) (snd counted_fetch)
              fresh_client test_url no_options
              {| data := VObj [("hello", VStr "world")]; result_paid := true;
                 result_price := VNum (Int 100); result_preimage := Some PREIMAGE_HEX |})
    as (Hzero & Hone & _).
  - reflexivity.
  - vm_compute. reflexivity.
  - reflexivity.
  - split; [reflexivity |]. split; [exact Hzero | exact Hone].
Defined.
